(** * Arrow block builders and row views of [ray.experimental.data]

    A shallow embedding of [python/ray/experimental/data/impl/arrow_block.py]:
    the row view [ArrowRow], the builders [ArrowBlockBuilder] and
    [DelegatingArrowBlockBuilder], and the row iterator of
    [ArrowBlockAccessor].  Python objects are records of their fields,
    methods are computations in a state-and-exception monad over the
    receiver, and the external table library (pyarrow) is an interface
    record that the embedding is parametrised by. *)

From stdpp Require Import base list strings gmap.
From Stdlib Require Import ZArith Lia.
From Equations Require Import Equations.

Set Default Proof Using "Type".

(** ** Python values, exceptions and insertion-ordered dictionaries *)

(** The scalars that occur as field values of a row, and as items that are
    not mappings.  [VObject] is an arbitrary Python object, known only by
    its identity. *)
Inductive value : Type :=
| VNone
| VInt (z : Z)
| VStr (s : string)
| VObject (addr : positive).

#[global] Instance value_eq_dec : EqDecision value.
Proof. solve_decision. Defined.

(** The exception classes that the module raises, catches or lets through. *)
Inductive exn : Type :=
| ValueError
| TypeError
| IndexError
| AssertionError
| StopIteration
| ArrowInvalid
| ArrowTypeError
| OtherError (name : string).

#[global] Instance exn_eq_dec : EqDecision exn.
Proof. solve_decision. Defined.

(** [isinstance e cls]: the class itself, or one of its bases.  pyarrow
    declares [ArrowInvalid] as a [ValueError] and [ArrowTypeError] as a
    [TypeError]. *)
Definition isinstance (e cls : exn) : bool :=
  bool_decide (e = cls) ||
  match e with
  | ArrowInvalid => bool_decide (cls = ValueError)
  | ArrowTypeError => bool_decide (cls = TypeError)
  | _ => false
  end.

Inductive result (A : Type) : Type :=
| Ok (a : A)
| Err (e : exn).
Arguments Ok {A} a.
Arguments Err {A} e.

(** A Python [dict] with string keys: the list of its items in insertion
    order.  A key occurs once in a dictionary built by [dict_set]. *)
Abbreviation dict V := (list (string * V)).

Fixpoint dict_get {V} (d : dict V) (k : string) : option V :=
  match d with
  | [] => None
  | (k', v) :: d' => if decide (k' = k) then Some v else dict_get d' k
  end.

(** [d[k] = v]: overwrite in place, or append a new item. *)
Fixpoint dict_set {V} (d : dict V) (k : string) (v : V) : dict V :=
  match d with
  | [] => [(k, v)]
  | (k', v') :: d' =>
      if decide (k' = k) then (k, v) :: d' else (k', v') :: dict_set d' k v
  end.

(** [d[k].append(v)] on a [collections.defaultdict(list)]: a missing key
    is first bound to the empty list. *)
Definition defaultdict_append {V} (d : dict (list V)) (k : string) (v : V)
  : dict (list V) :=
  dict_set d k (default [] (dict_get d k) ++ [v]).

(** [d1 == d2] on two dictionaries: equal sizes, and every item of [d1] is
    bound to an equal value in [d2]. *)
Definition dict_equal (d1 d2 : dict value) : bool :=
  bool_decide (length d1 = length d2) &&
  forallb (λ kv, bool_decide (dict_get d2 kv.1 = Some kv.2)) d1.

(** The mapping a dictionary denotes, with the insertion order forgotten. *)
Definition dict_to_map {V} (d : dict V) : gmap string V := list_to_map d.

(** ** Methods as computations over the receiver's fields *)

Inductive outcome (S A : Type) : Type :=
| Return (a : A) (self : S)
| Raise (e : exn) (self : S).
Arguments Return {S A} a self.
Arguments Raise {S A} e self.

Definition Py (S A : Type) : Type := S → outcome S A.

Definition py_ret {S A} (a : A) : Py S A := λ self, Return a self.

Definition py_bind {S A B} (m : Py S A) (k : A → Py S B) : Py S B :=
  λ self,
    match m self with
    | Return a self' => k a self'
    | Raise e self' => Raise e self'
    end.

Definition py_raise {S A} (e : exn) : Py S A := λ self, Raise e self.

Definition py_read {S A} (f : S → A) : Py S A := λ self, Return (f self) self.

Definition py_update {S} (f : S → S) : Py S unit := λ self, Return tt (f self).

(** A call into the library, which answers or raises. *)
Definition py_call {S A} (r : result A) : Py S A :=
  λ self, match r with Ok a => Return a self | Err e => Raise e self end.

(** A method called on another object [obj]: it answers with the value and
    the object as the call left it, or raises. *)
Definition py_on {S T A} (obj : T) (m : Py T A) : Py S (A * T) :=
  λ self,
    match m obj with
    | Return a obj' => Return (a, obj') self
    | Raise e _ => Raise e self
    end.

(** [try: m  except classes: h]. *)
Definition py_try {S A} (m : Py S A) (classes : list exn) (h : Py S A)
  : Py S A :=
  λ self,
    match m self with
    | Return a self' => Return a self'
    | Raise e self' =>
        if existsb (isinstance e) classes then h self' else Raise e self'
    end.

Declare Scope py_scope.
Delimit Scope py_scope with py.
Notation "x <- m ;; k" := (py_bind m (λ x, k))
  (at level 100, m at next level, right associativity) : py_scope.
Notation "m ;; k" := (py_bind m (λ _, k))
  (at level 100, right associativity) : py_scope.

(** ** The external table library *)

(** The operations of pyarrow that the module calls.  The embedding takes
    them as given; [pyarrow_model] below is one library that provides
    them. *)
Record ArrowLib : Type := {
  Table : Type;
  (** [pyarrow.Table.from_pydict(columns)] *)
  Table_from_pydict : dict (list value) → result Table;
  (** [pyarrow.concat_tables(tables)] *)
  concat_tables : list Table → result Table;
  (** [table.num_rows] *)
  Table_num_rows : Table → Z;
  (** [table.slice(offset, length)] *)
  Table_slice : Table → Z → Z → Table;
  (** [table.to_pydict()] *)
  Table_to_pydict : Table → dict (list value);
}.

(** ** Objects of other classes *)

(** A Python object of a class that this module does not define is known by
    its identity and, where [==] meets it, by what its own [__eq__] answers
    when it is asked about a [dict]: [None] stands for [NotImplemented],
    otherwise the answer is a truth value or an exception.  The default
    [object.__eq__] answers [NotImplemented] for every [dict];
    [unittest.mock.ANY] answers [True]. *)
Class Objects : Type :=
  object___eq__ : positive → dict value → option (result bool).

(** ** The classes of [arrow_block.py] *)

Section ArrowBlock.
Context (L : ArrowLib) {objects : Objects}.
Local Open Scope py_scope.

(** *** [class ArrowRow] *)

Record ArrowRow : Type := { _row : Table L }.

(** The comprehension [{k: v[0] for k, v in items}]; [v[0]] raises
    [IndexError] on an empty column. *)
Fixpoint first_of_each (items : dict (list value)) (acc : dict value)
  : result (dict value) :=
  match items with
  | [] => Ok acc
  | (k, v) :: items' =>
      match v with
      | [] => Err IndexError
      | x :: _ => first_of_each items' (dict_set acc k x)
      end
  end.

Definition as_pydict (self : ArrowRow) : result (dict value) :=
  first_of_each (Table_to_pydict L (_row self)) [].

(** What [add] can be given, and what [==] can meet on its right: a
    [dict], a row view, or anything else. *)
Inductive item : Type :=
| IDict (d : dict value)
| IArrowRow (r : ArrowRow)
| IValue (v : value).

Definition is_dict (x : item) : bool :=
  match x with IDict _ => true | _ => false end.

(** [dict.__eq__(d, other)]: [None] stands for [NotImplemented]. *)
Definition dict___eq__ (d : dict value) (other : item) : option bool :=
  match other with
  | IDict d' => Some (dict_equal d d')
  | _ => None
  end.

(** The reflected [other.__eq__(d)] of an operand that is neither a [dict]
    nor a row view.  [NoneType], [int] and [str] answer [NotImplemented] to
    a [dict]; an object of another class answers what its class says. *)
Definition value___eq__ (other : value) (d : dict value)
  : option (result bool) :=
  match other with
  | VObject addr => object___eq__ addr d
  | VNone | VInt _ | VStr _ => None
  end.

(** [ArrowRow.__eq__(self, other)] is [self.as_pydict() == other].  The
    interpreter asks [dict.__eq__] first; when that is [NotImplemented] it
    asks the reflected [other.__eq__(d)], which for a row view is this same
    method with a [dict] on the right; when that is [NotImplemented] too the
    two objects are compared by identity, and [d] is a fresh object. *)
Definition ArrowRow___eq__ (self : ArrowRow) (other : item) : result bool :=
  match as_pydict self with
  | Err e => Err e
  | Ok d =>
      match dict___eq__ d other with
      | Some b => Ok b
      | None =>
          match other with
          | IArrowRow r =>
              match as_pydict r with
              | Err e => Err e
              | Ok d' => Ok (dict_equal d' d)
              end
          | IValue v =>
              match value___eq__ v d with
              | Some answer => answer
              | None => Ok false
              end
          | IDict _ => Ok false (* not reached: [dict.__eq__] answers *)
          end
      end
  end.

(** *** Blocks and [SimpleBlockBuilder] *)

(** A block is a pyarrow table or a Python list of rows. *)
Inductive block : Type :=
| ArrowBlock (t : Table L)
| SimpleBlock (rows : list item).

(** Modelled from the spec: [SimpleBlockBuilder] lives in
    [ray/experimental/data/impl/block_builder.py].  [add] appends the item
    verbatim with no validation, [add_block] appends all rows of a simple
    block in order and rejects any other block, [build] returns the
    accumulated sequence, [num_rows] is its length. *)
Record SimpleBlockBuilder : Type := { _items : list item }.

Definition SimpleBlockBuilder___init__ : SimpleBlockBuilder :=
  {| _items := [] |}.

Definition SimpleBlockBuilder_add (x : item) : Py SimpleBlockBuilder unit :=
  py_update (λ self, {| _items := _items self ++ [x] |}).

Definition SimpleBlockBuilder_add_block (b : block)
  : Py SimpleBlockBuilder unit :=
  match b with
  | SimpleBlock rows => py_update (λ self, {| _items := _items self ++ rows |})
  | ArrowBlock _ => py_raise AssertionError
  end.

Definition SimpleBlockBuilder_build : Py SimpleBlockBuilder block :=
  py_read (λ self, SimpleBlock (_items self)).

Definition SimpleBlockBuilder_num_rows : Py SimpleBlockBuilder Z :=
  py_read (λ self, Z.of_nat (length (_items self))).

(** *** [class ArrowBlockBuilder] *)

Record ArrowBlockBuilder : Type := {
  _columns : dict (list value);
  _tables : list (Table L);
  _num_rows : Z;
}.

Definition ArrowBlockBuilder___init__ : ArrowBlockBuilder :=
  {| _columns := []; _tables := []; _num_rows := 0 |}.

(** [for key, value in item.items(): self._columns[key].append(value)] *)
Definition append_items (d : dict value) (columns : dict (list value))
  : dict (list value) :=
  foldl (λ cols kv, defaultdict_append cols kv.1 kv.2) columns d.

Definition ArrowBlockBuilder_add (x : item) : Py ArrowBlockBuilder unit :=
  x <- match x with
       | IArrowRow r => d <- py_call (as_pydict r) ;; py_ret (IDict d)
       | _ => py_ret x
       end ;;
  match x with
  | IDict d =>
      py_update (λ self,
        {| _columns := append_items d (_columns self);
           _tables := _tables self;
           _num_rows := _num_rows self + 1 |})
  | _ => py_raise ValueError
  end.

Definition ArrowBlockBuilder_add_block (b : block)
  : Py ArrowBlockBuilder unit :=
  match b with
  | ArrowBlock t =>
      py_update (λ self,
        {| _columns := _columns self;
           _tables := _tables self ++ [t];
           _num_rows := _num_rows self + Table_num_rows L t |})
  | SimpleBlock _ => py_raise AssertionError
  end.

Definition ArrowBlockBuilder_build : Py ArrowBlockBuilder (Table L) :=
  columns <- py_read _columns ;;
  tables <- match columns with
            | _ :: _ => t <- py_call (Table_from_pydict L columns) ;; py_ret [t]
            | [] => py_ret []
            end ;;
  merged <- py_read _tables ;;
  let tables := tables ++ merged in
  match tables with
  | _ :: _ :: _ => py_call (concat_tables L tables)
  | t :: _ => py_ret t
  | [] => py_call (Table_from_pydict L [])
  end.

Definition ArrowBlockBuilder_num_rows : Py ArrowBlockBuilder Z :=
  py_read _num_rows.

(** *** [class DelegatingArrowBlockBuilder] *)

(** The object behind [self._builder], once there is one. *)
Inductive Builder : Type :=
| BArrow (b : ArrowBlockBuilder)
| BSimple (b : SimpleBlockBuilder).

Record DelegatingArrowBlockBuilder : Type := { _builder : option Builder }.

Definition DelegatingArrowBlockBuilder___init__ : DelegatingArrowBlockBuilder :=
  {| _builder := None |}.

(** A method of the concrete builder, run on the object that
    [self._builder] refers to; what the method did to that object stays
    done when it raises. *)
Definition on_arrow {A} (m : Py ArrowBlockBuilder A) (b : ArrowBlockBuilder)
  : outcome DelegatingArrowBlockBuilder A :=
  match m b with
  | Return a b' => Return a {| _builder := Some (BArrow b') |}
  | Raise e b' => Raise e {| _builder := Some (BArrow b') |}
  end.

Definition on_simple {A} (m : Py SimpleBlockBuilder A) (b : SimpleBlockBuilder)
  : outcome DelegatingArrowBlockBuilder A :=
  match m b with
  | Return a b' => Return a {| _builder := Some (BSimple b') |}
  | Raise e b' => Raise e {| _builder := Some (BSimple b') |}
  end.

(** [self._builder.method(...)], dispatched on the class of the builder;
    on [None] the attribute lookup fails. *)
Definition on_builder {A} (arrow : Py ArrowBlockBuilder A)
    (simple : Py SimpleBlockBuilder A) : Py DelegatingArrowBlockBuilder A :=
  λ self,
    match _builder self with
    | Some (BArrow b) => on_arrow arrow b
    | Some (BSimple b) => on_simple simple b
    | None => Raise (OtherError "AttributeError") self
    end.

Definition set_builder (b : Builder) : Py DelegatingArrowBlockBuilder unit :=
  py_update (λ _, {| _builder := Some b |}).

Definition DelegatingArrowBlockBuilder_add (x : item)
  : Py DelegatingArrowBlockBuilder unit :=
  builder <- py_read _builder ;;
  match builder with
  | None =>
      if is_dict x then
        py_try
          (check <- py_on ArrowBlockBuilder___init__ (ArrowBlockBuilder_add x) ;;
           py_on check.2 ArrowBlockBuilder_build ;;
           set_builder (BArrow ArrowBlockBuilder___init__))
          [TypeError; ArrowInvalid]
          (set_builder (BSimple SimpleBlockBuilder___init__))
      else set_builder (BSimple SimpleBlockBuilder___init__)
  | Some _ => py_ret tt
  end ;;
  on_builder (ArrowBlockBuilder_add x) (SimpleBlockBuilder_add x).

(** Modelled from the spec: [BlockAccessor.for_block(block).builder()]
    lives in [ray/experimental/data/block.py]; the block's own accessor
    names the builder class that matches its representation. *)
Definition builder_for_block (b : block) : Builder :=
  match b with
  | ArrowBlock _ => BArrow ArrowBlockBuilder___init__
  | SimpleBlock _ => BSimple SimpleBlockBuilder___init__
  end.

Definition DelegatingArrowBlockBuilder_add_block (b : block)
  : Py DelegatingArrowBlockBuilder unit :=
  builder <- py_read _builder ;;
  match builder with
  | None => set_builder (builder_for_block b)
  | Some _ => py_ret tt
  end ;;
  on_builder (ArrowBlockBuilder_add_block b) (SimpleBlockBuilder_add_block b).

Definition DelegatingArrowBlockBuilder_build
  : Py DelegatingArrowBlockBuilder block :=
  builder <- py_read _builder ;;
  match builder with
  | None => set_builder (BArrow ArrowBlockBuilder___init__)
  | Some _ => py_ret tt
  end ;;
  on_builder (t <- ArrowBlockBuilder_build ;; py_ret (ArrowBlock t))
             SimpleBlockBuilder_build.

Definition DelegatingArrowBlockBuilder_num_rows
  : Py DelegatingArrowBlockBuilder Z :=
  builder <- py_read _builder ;;
  match builder with
  | Some _ => on_builder ArrowBlockBuilder_num_rows SimpleBlockBuilder_num_rows
  | None => py_ret 0%Z
  end.

(** *** [class ArrowBlockAccessor] and its row iterator *)

Record ArrowBlockAccessor : Type := { _table : Table L }.

(** [class Iter], local to [iter_rows]; [outer] is the accessor that the
    class closes over. *)
Record Iter : Type := { _cur : Z }.

Definition Iter___init__ : Iter := {| _cur := -1 |}.

Definition Iter___next__ (outer : ArrowBlockAccessor) : Py Iter ArrowRow :=
  py_update (λ self, {| _cur := _cur self + 1 |}) ;;
  cur <- py_read _cur ;;
  if bool_decide (cur < Table_num_rows L (_table outer))%Z
  then py_ret {| _row := Table_slice L (_table outer) cur 1 |}
  else py_raise StopIteration.

Definition iter_rows (self : ArrowBlockAccessor) : Iter := Iter___init__.

Definition ArrowBlockAccessor_num_rows (self : ArrowBlockAccessor) : Z :=
  Table_num_rows L (_table self).

(** A value together with the equation that names it, so that the
    termination argument below can use what [__next__] returned. *)
Definition inspect {A} (a : A) : {b : A | a = b} := exist _ a eq_refl.

(** [list(it)]: call [__next__] until it raises [StopIteration].  The rows
    left before the end of the table bound the number of calls. *)
Equations? list_of_iter (outer : ArrowBlockAccessor) (it : Iter)
  : outcome Iter (list ArrowRow)
  by wf (Z.to_nat (Table_num_rows L (_table outer) - _cur it)) lt :=
list_of_iter outer it with inspect (Iter___next__ outer it) := {
  | exist _ (Return row it') _ with list_of_iter outer it' => {
      | Return rows it'' => Return (row :: rows) it'';
      | Raise e it'' => Raise e it'' };
  | exist _ (Raise StopIteration it') _ => Return [] it';
  | exist _ (Raise e it') _ => Raise e it' }.
Proof.
  match goal with H : Iter___next__ _ _ = Return _ _ |- _ =>
    revert H end.
  unfold Iter___next__, py_bind, py_update, py_read, py_ret, py_raise.
  simpl. case_bool_decide; [|discriminate].
  intros [= _ <-]. simpl. lia.
Qed.

End ArrowBlock.

Arguments IDict {L} d.
Arguments IArrowRow {L} r.
Arguments IValue {L} v.
Arguments ArrowBlock {L} t.
Arguments SimpleBlock {L} rows.
Arguments BArrow {L} b.
Arguments BSimple {L} b.

(** ** A model of the table library *)

Module PyArrow.

(** The Arrow types that pyarrow infers for the scalars above. *)
Inductive dtype : Type := TNull | TInt64 | TString.

#[global] Instance dtype_eq_dec : EqDecision dtype.
Proof. solve_decision. Defined.

(** A column is a named, typed array; a table is its columns in schema
    order, all of one length. *)
Record column : Type := {
  col_name : string;
  col_type : dtype;
  col_data : list value;
}.

#[global] Instance column_eq_dec : EqDecision column.
Proof. solve_decision. Defined.

Abbreviation table := (list column).

Definition value_dtype (v : value) : result dtype :=
  match v with
  | VNone => Ok TNull
  | VInt _ => Ok TInt64
  | VStr _ => Ok TString
  | VObject _ => Err ArrowInvalid
  end.

(** The type of an array that holds a value of type [t] after values of
    type [acc]: nulls fit every type, two different types do not mix. *)
Definition unify (acc t : dtype) : result dtype :=
  match acc, t with
  | TNull, _ => Ok t
  | _, TNull => Ok acc
  | _, _ => if decide (acc = t) then Ok acc else Err ArrowTypeError
  end.

Fixpoint infer_from (acc : dtype) (vs : list value) : result dtype :=
  match vs with
  | [] => Ok acc
  | v :: vs' =>
      match value_dtype v with
      | Err e => Err e
      | Ok t =>
          match unify acc t with
          | Err e => Err e
          | Ok acc' => infer_from acc' vs'
          end
      end
  end.

Definition infer_dtype (vs : list value) : result dtype := infer_from TNull vs.

Fixpoint arrays_of (columns : dict (list value)) : result table :=
  match columns with
  | [] => Ok []
  | (k, vs) :: columns' =>
      match infer_dtype vs with
      | Err e => Err e
      | Ok ty =>
          match arrays_of columns' with
          | Err e => Err e
          | Ok t => Ok ({| col_name := k; col_type := ty; col_data := vs |} :: t)
          end
      end
  end.

Definition num_rows (t : table) : Z :=
  match t with
  | [] => 0
  | c :: _ => Z.of_nat (length (col_data c))
  end.

Definition same_length (t : table) : bool :=
  forallb (λ c, bool_decide (Z.of_nat (length (col_data c)) = num_rows t)) t.

Definition from_pydict (columns : dict (list value)) : result table :=
  match arrays_of columns with
  | Err e => Err e
  | Ok t => if same_length t then Ok t else Err ArrowInvalid
  end.

Definition schema (t : table) : list (string * dtype) :=
  map (λ c, (col_name c, col_type c)) t.

Definition append_table (t1 t2 : table) : table :=
  zip_with (λ c1 c2,
    {| col_name := col_name c1; col_type := col_type c1;
       col_data := col_data c1 ++ col_data c2 |}) t1 t2.

Definition concat (ts : list table) : result table :=
  match ts with
  | [] => Err ValueError
  | t :: ts' =>
      if forallb (λ t', bool_decide (schema t' = schema t)) ts'
      then Ok (foldl append_table t ts')
      else Err ArrowInvalid
  end.

Definition slice (t : table) (offset len : Z) : table :=
  map (λ c,
    {| col_name := col_name c; col_type := col_type c;
       col_data := take (Z.to_nat len) (drop (Z.to_nat offset) (col_data c)) |}) t.

Definition to_pydict (t : table) : dict (list value) :=
  foldl (λ d c, dict_set d (col_name c) (col_data c)) [] t.

End PyArrow.

(** Modelled from the spec: pyarrow is an external library, known here by
    the interface of section 6.  "Construct table from named columns"
    takes a mapping from column name to a homogeneous array and fails with
    a type or shape error; "concatenate tables" takes tables with
    compatible schemas, in order, and fails otherwise; "slice table"
    returns the rows [offset, offset + length); "table row count" is the
    common length of the columns.  A table built from no columns has no
    rows. *)
Definition pyarrow_model : ArrowLib := {|
  Table := PyArrow.table;
  Table_from_pydict := PyArrow.from_pydict;
  concat_tables := PyArrow.concat;
  Table_num_rows := PyArrow.num_rows;
  Table_slice := PyArrow.slice;
  Table_to_pydict := PyArrow.to_pydict;
|}.

(** ** Sequences of calls *)

Section Calls.
Context {L : ArrowLib}.

Inductive call : Type :=
| Add (x : item L)
| AddBlock (b : block L).

(** The calls of a producer, one after the other; the first one that
    raises ends the sequence. *)
Fixpoint run {S} (step : call → Py S unit) (calls : list call) : Py S unit :=
  match calls with
  | [] => py_ret tt
  | c :: calls' => py_bind (step c) (λ _, run step calls')
  end.

Definition ArrowBlockBuilder_call (c : call) : Py (ArrowBlockBuilder L) unit :=
  match c with
  | Add x => ArrowBlockBuilder_add L x
  | AddBlock b => ArrowBlockBuilder_add_block L b
  end.

Definition DelegatingArrowBlockBuilder_call (c : call)
  : Py (DelegatingArrowBlockBuilder L) unit :=
  match c with
  | Add x => DelegatingArrowBlockBuilder_add L x
  | AddBlock b => DelegatingArrowBlockBuilder_add_block L b
  end.

End Calls.
Arguments call L : clear implicits.

(** ** Properties that hold for every table library *)

Section Generic.
Context (L : ArrowLib).

Lemma run_app {S} (step : call L → Py S unit) (cs1 cs2 : list (call L)) self :
  run step (cs1 ++ cs2) self =
  py_bind (run step cs1) (λ _, run step cs2) self.
Proof.
  revert self. induction cs1 as [|c cs1 IH]; intros self; simpl.
  - reflexivity.
  - unfold py_bind in *. destruct (step c self) as [[] self'|e self']; auto.
Qed.

(** Once the simple builder is chosen, [add] only appends to it. *)
Lemma delegating_add_simple (x : item L) (b : SimpleBlockBuilder L) :
  DelegatingArrowBlockBuilder_add L x {| _builder := Some (BSimple b) |} =
  Return tt {| _builder := Some (BSimple {| _items := _items L b ++ [x] |}) |}.
Proof. reflexivity. Qed.

Lemma run_add_simple (xs : list (item L)) (b : SimpleBlockBuilder L) :
  run DelegatingArrowBlockBuilder_call (Add <$> xs)
      {| _builder := Some (BSimple b) |} =
  Return tt {| _builder := Some (BSimple {| _items := _items L b ++ xs |}) |}.
Proof.
  revert b. induction xs as [|x xs IH]; intros b; simpl.
  - rewrite app_nil_r. by destruct b.
  - unfold py_bind at 1. rewrite delegating_add_simple, IH. simpl.
    by rewrite <- app_assoc.
Qed.

(** C3: when the first item added to a fresh delegating builder is not a
    [dict], that first [add] installs a simple builder holding just that
    item, and the whole sequence of [add] calls returns with the same
    simple builder holding every item in call order, whatever the shapes of
    the later items. *)
Theorem C3_first_non_mapping_selects_simple (x : item L) (xs : list (item L)) :
  is_dict L x = false →
  DelegatingArrowBlockBuilder_add L x (DelegatingArrowBlockBuilder___init__ L) =
    Return tt {| _builder := Some (BSimple {| _items := [x] |}) |} ∧
  run DelegatingArrowBlockBuilder_call (Add <$> (x :: xs))
      (DelegatingArrowBlockBuilder___init__ L) =
    Return tt {| _builder := Some (BSimple {| _items := x :: xs |}) |}.
Proof.
  intros Hx.
  assert (DelegatingArrowBlockBuilder_add L x
            (DelegatingArrowBlockBuilder___init__ L) =
          Return tt {| _builder := Some (BSimple {| _items := [x] |}) |}) as H1.
  { destruct x; try discriminate; reflexivity. }
  split; [exact H1|].
  simpl. unfold py_bind at 1.
  change (DelegatingArrowBlockBuilder_call (Add x)) with
    (DelegatingArrowBlockBuilder_add L x).
  rewrite H1. apply run_add_simple.
Qed.

(** C4 (amended): [add] of an item that is neither a [dict] nor a row view
    raises [ValueError], at once, and leaves the pending columns, the
    merged tables and the row count as they were. *)
Theorem C4_add_non_mapping_raises_ValueError (v : value) (b : ArrowBlockBuilder L) :
  ArrowBlockBuilder_add L (IValue v) b = Raise ValueError b ∧
  isinstance ValueError ValueError = true.
Proof. split; reflexivity. Qed.

(** C8: when the first item is a [dict] and the trial (a throwaway
    [ArrowBlockBuilder], [add], [build]) raises an error that is a
    [TypeError] or an [ArrowInvalid], [add] on the delegating builder
    returns normally and leaves a simple builder whose only item is that
    [dict]. *)
Theorem C8_trial_failure_falls_back_to_simple
    (d : dict value) (check check' : ArrowBlockBuilder L) (e : exn) :
  ArrowBlockBuilder_add L (IDict d) (ArrowBlockBuilder___init__ L) =
    Return tt check →
  ArrowBlockBuilder_build L check = Raise e check' →
  isinstance e TypeError || isinstance e ArrowInvalid = true →
  DelegatingArrowBlockBuilder_add L (IDict d)
      (DelegatingArrowBlockBuilder___init__ L) =
    Return tt {| _builder := Some (BSimple {| _items := [IDict d] |}) |}.
Proof.
  intros Hadd Hbuild He.
  unfold DelegatingArrowBlockBuilder_add, py_bind at 1. simpl.
  unfold py_bind at 1, py_try, py_bind at 1, py_on at 1.
  rewrite Hadd. simpl. unfold py_bind at 1, py_on. rewrite Hbuild.
  simpl. rewrite orb_false_r, He. reflexivity.
Qed.

(** C10: after exactly one [add_block(table)] and no [add], [build]
    returns that very table; more generally [build] returns the single
    merged table as it is when nothing is pending, and the single
    materialized table as the library made it when nothing was merged.
    This holds for every library, so neither construction nor
    concatenation takes part in the first two, and concatenation takes no
    part in the third. *)
Theorem C10_single_table_returned_as_is :
  (∀ t : Table L,
     py_bind (ArrowBlockBuilder_add_block L (ArrowBlock t))
             (λ _, ArrowBlockBuilder_build L) (ArrowBlockBuilder___init__ L) =
     Return t {| _columns := []; _tables := [t];
                 _num_rows := 0 + Table_num_rows L t |}) ∧
  (∀ (b : ArrowBlockBuilder L) (t : Table L),
     _columns L b = [] → _tables L b = [t] →
     ArrowBlockBuilder_build L b = Return t b) ∧
  (∀ (b : ArrowBlockBuilder L),
     _columns L b ≠ [] → _tables L b = [] →
     ArrowBlockBuilder_build L b =
     py_call (Table_from_pydict L (_columns L b)) b).
Proof.
  split; [reflexivity|]. split.
  - intros [cols ts n] t; simpl; intros -> ->. reflexivity.
  - intros [cols ts n]; simpl; intros Hc ->.
    destruct cols as [|c cols]; [done|].
    unfold ArrowBlockBuilder_build, py_bind, py_read, py_call, py_ret. simpl.
    by destruct (Table_from_pydict L (c :: cols)).
Qed.

End Generic.

(** ** Dictionaries as mappings *)

Section Dict.
Context {V : Type}.
Implicit Types (d : dict V) (k : string) (v : V).

Lemma dict_get_to_map d k : dict_get d k = dict_to_map d !! k.
Proof.
  unfold dict_to_map. induction d as [|[k' v'] d IH]; simpl.
  - by rewrite lookup_empty.
  - case_decide as Hk.
    + subst. by rewrite lookup_insert_eq.
    + by rewrite lookup_insert_ne.
Qed.

Lemma dict_to_map_set d k v :
  dict_to_map (dict_set d k v) = <[k:=v]> (dict_to_map d).
Proof.
  unfold dict_to_map. induction d as [|[k' v'] d IH]; simpl; [done|].
  case_decide as Hk; simpl.
  - subst. by rewrite insert_insert_eq.
  - rewrite IH. by apply insert_insert_ne.
Qed.

Lemma dict_set_keys d k v :
  (dict_set d k v).*1 = if decide (k ∈ d.*1) then d.*1 else d.*1 ++ [k].
Proof.
  induction d as [|[k' v'] d IH]; csimpl.
  - done.
  - destruct (decide (k' = k)) as [->|Hk]; csimpl.
    + rewrite decide_True; [done|]. apply elem_of_cons; auto.
    + rewrite IH. destruct (decide (k ∈ d.*1)) as [Hin|Hin].
      * rewrite decide_True; [done|]. apply elem_of_cons; auto.
      * rewrite decide_False; [done|]. rewrite elem_of_cons.
        intros [?|?]; congruence.
Qed.

Lemma dict_set_NoDup d k v : NoDup d.*1 → NoDup (dict_set d k v).*1.
Proof.
  intros Hd. rewrite dict_set_keys. case_decide; [done|].
  apply NoDup_app. split; [done|]. split; [|apply NoDup_singleton].
  intros x Hx ->%list_elem_of_singleton. done.
Qed.

Lemma dict_get_Some_elem_of d k v : dict_get d k = Some v → (k, v) ∈ d.
Proof. rewrite dict_get_to_map. apply elem_of_list_to_map_2. Qed.

Lemma dict_get_None d k : dict_get d k = None ↔ k ∉ d.*1.
Proof. rewrite dict_get_to_map. symmetry. apply not_elem_of_list_to_map. Qed.

Lemma dict_elem_of_get d k v : NoDup d.*1 → (k, v) ∈ d → dict_get d k = Some v.
Proof. rewrite dict_get_to_map. apply elem_of_list_to_map_1. Qed.

End Dict.

(** [==] on two dictionaries decides equality of the mappings they denote. *)
Lemma dict_equal_spec (d1 d2 : dict value) :
  NoDup d1.*1 → NoDup d2.*1 →
  dict_equal d1 d2 = true ↔ dict_to_map d1 = dict_to_map d2.
Proof.
  intros Hd1 Hd2. unfold dict_equal.
  rewrite andb_true_iff, bool_decide_eq_true, forallb_forall. split.
  - intros [Hlen Hall].
    assert (∀ k v, (k, v) ∈ d1 → dict_get d2 k = Some v) as Hsub.
    { intros k v Hin. apply list_elem_of_In, Hall in Hin.
      by apply bool_decide_eq_true in Hin. }
    assert (d1.*1 ≡ₚ d2.*1) as Hperm.
    { apply submseteq_length_Permutation; [|by rewrite !length_fmap, Hlen].
      apply NoDup_submseteq; [done|]. intros k Hk.
      apply list_elem_of_fmap in Hk as [[k' v] [-> Hin]]. simpl.
      apply Hsub, dict_get_Some_elem_of in Hin.
      apply list_elem_of_fmap. by exists (k', v). }
    apply map_eq. intros k. rewrite <- !dict_get_to_map.
    destruct (dict_get d1 k) as [v|] eqn:Hk.
    + symmetry. by apply Hsub, dict_get_Some_elem_of.
    + symmetry. apply dict_get_None. rewrite <- Hperm. by apply dict_get_None.
  - intros Heq. split.
    + rewrite <- (map_size_list_to_map (M := gmap string) d1) by done.
      rewrite <- (map_size_list_to_map (M := gmap string) d2) by done.
      unfold dict_to_map in Heq. by rewrite Heq.
    + intros [k v] Hin%list_elem_of_In. apply bool_decide_eq_true. simpl.
      rewrite dict_get_to_map, <- Heq, <- dict_get_to_map.
      by apply dict_elem_of_get.
Qed.

(** ** Row views *)

Section RowViews.
Context (L : ArrowLib) {objects : Objects}.

Lemma first_of_each_NoDup (items : dict (list value)) (acc d : dict value) :
  NoDup acc.*1 → first_of_each items acc = Ok d → NoDup d.*1.
Proof.
  revert acc. induction items as [|[k vs] items IH]; intros acc Hacc; simpl.
  - by intros [= <-].
  - destruct vs as [|x vs]; [done|]. apply IH. by apply dict_set_NoDup.
Qed.

Lemma as_pydict_NoDup (r : ArrowRow L) (d : dict value) :
  as_pydict L r = Ok d → NoDup d.*1.
Proof. apply first_of_each_NoDup. constructor. Qed.

(** C9: two row views whose mapping forms exist compare with [==] to a
    boolean, never to an error, and that boolean is [True] exactly when
    the two mapping forms denote the same mapping from keys to values;
    which table object each view holds plays no part. *)
Theorem C9_row_views_equal_iff_mappings_equal
    (r1 r2 : ArrowRow L) (d1 d2 : dict value) :
  as_pydict L r1 = Ok d1 →
  as_pydict L r2 = Ok d2 →
  ∃ b : bool,
    ArrowRow___eq__ L r1 (IArrowRow r2) = Ok b ∧
    (b = true ↔ dict_to_map d1 = dict_to_map d2).
Proof.
  intros H1 H2. exists (dict_equal d2 d1). split.
  - unfold ArrowRow___eq__. rewrite H1. simpl. by rewrite H2.
  - rewrite dict_equal_spec by eauto using as_pydict_NoDup. done.
Qed.

End RowViews.

(** ** The row iterator *)

Section Iterator.
Context (L : ArrowLib).

Lemma list_of_iter_step (outer : ArrowBlockAccessor L) (it : Iter) :
  list_of_iter L outer it =
  match Iter___next__ L outer it with
  | Return row it' =>
      match list_of_iter L outer it' with
      | Return rows it'' => Return (row :: rows) it''
      | Raise e it'' => Raise e it''
      end
  | Raise StopIteration it' => Return [] it'
  | Raise e it' => Raise e it'
  end.
Proof.
  funelim (list_of_iter L outer it);
    match goal with e : Iter___next__ _ _ _ = _ |- _ => rewrite e end;
    try done.
  all: match goal with
       | H : list_of_iter _ _ _ = Return _ _ |- _ => by rewrite H
       | H : list_of_iter _ _ _ = Raise _ _ |- _ => by rewrite H
       end.
Qed.

(** The view of row [i]: a row view over the one-row slice at [i]. *)
Definition view_at (t : Table L) (i : Z) : ArrowRow L :=
  {| _row := Table_slice L t i 1 |}.

(** Draining the iterator from position [cur] returns, and yields the
    views of the rows after [cur] up to the end of the table, in order. *)
Lemma list_of_iter_from (t : Table L) (it : Iter) :
  list_of_iter L {| _table := t |} it =
  Return (view_at t <$> seqZ (_cur it + 1) (Table_num_rows L t - (_cur it + 1)))
         {| _cur := Z.max (_cur it + 1) (Table_num_rows L t) |}.
Proof.
  remember (Z.to_nat (Table_num_rows L t - (_cur it + 1))) as k eqn:Hk.
  revert it Hk. induction k as [|k IH]; intros [cur] Hk; simpl in *;
    rewrite list_of_iter_step;
    unfold Iter___next__, py_bind, py_update, py_read, py_ret, py_raise; simpl;
    case_bool_decide as Hlt; try lia.
  - rewrite seqZ_nil by lia. do 2 f_equal. lia.
  - rewrite (IH {| _cur := cur + 1 |}) by (simpl; lia). simpl.
    rewrite (seqZ_cons (cur + 1)) by lia. simpl. f_equal.
    + do 3 f_equal; lia.
    + f_equal. lia.
Qed.

Lemma list_of_iter_rows (t : Table L) :
  list_of_iter L {| _table := t |} (iter_rows L {| _table := t |}) =
  Return (view_at t <$> seqZ 0 (Table_num_rows L t))
         {| _cur := Z.max 0 (Table_num_rows L t) |}.
Proof.
  unfold iter_rows. rewrite list_of_iter_from. simpl.
  by rewrite Z.sub_0_r.
Qed.

End Iterator.

(** ** What a sequence of calls leaves in an [ArrowBlockBuilder] *)

Section BuilderState.
Context (L : ArrowLib).

(** The mapping that [add(x)] appends to the pending columns. *)
Definition item_rows (x : item L) : list (dict value) :=
  match x with
  | IDict d => [d]
  | IArrowRow r => match as_pydict L r with Ok d => [d] | Err _ => [] end
  | IValue _ => []
  end.

(** The mappings given to [add], in call order. *)
Definition added (calls : list (call L)) : list (dict value) :=
  calls ≫= λ c, match c with Add x => item_rows x | AddBlock _ => [] end.

(** The tables given to [add_block], in call order. *)
Definition merged (calls : list (call L)) : list (Table L) :=
  calls ≫= λ c, match c with AddBlock (ArrowBlock t) => [t] | _ => [] end.

(** [sum(t.num_rows for t in tables)]. *)
Definition total_rows (ts : list (Table L)) : Z :=
  foldr (λ t n, Table_num_rows L t + n)%Z 0%Z ts.

(** The pending columns after the mappings [ds] were added to [columns]. *)
Definition pending (ds : list (dict value)) (columns : dict (list value))
  : dict (list value) :=
  foldl (λ cols d, append_items d cols) columns ds.

Lemma pending_app ds1 ds2 columns :
  pending (ds1 ++ ds2) columns = pending ds2 (pending ds1 columns).
Proof. apply foldl_app. Qed.

Lemma total_rows_app ts1 ts2 :
  total_rows (ts1 ++ ts2) = (total_rows ts1 + total_rows ts2)%Z.
Proof. induction ts1 as [|t ts1 IH]; simpl; lia. Qed.

Lemma added_cons c calls : added (c :: calls) = added [c] ++ added calls.
Proof. unfold added. simpl. by rewrite app_nil_r. Qed.

Lemma merged_cons c calls : merged (c :: calls) = merged [c] ++ merged calls.
Proof. unfold merged. simpl. by rewrite app_nil_r. Qed.

Lemma ArrowBlockBuilder_call_state (c : call L) (b b' : ArrowBlockBuilder L) :
  ArrowBlockBuilder_call c b = Return tt b' →
  _columns L b' = pending (added [c]) (_columns L b) ∧
  _tables L b' = _tables L b ++ merged [c] ∧
  _num_rows L b' =
    (_num_rows L b + Z.of_nat (length (added [c])) + total_rows (merged [c]))%Z.
Proof.
  destruct c as [x|blk]; simpl.
  - unfold ArrowBlockBuilder_add, py_bind, py_call, py_ret, py_update, py_raise.
    destruct x as [d|r|v]; simpl; [| |done].
    + intros [= <-]. simpl. rewrite !app_nil_r. split_and!; [done..|lia].
    + destruct (as_pydict L r) as [d|e]; simpl; [|done].
      intros [= <-]. simpl. rewrite !app_nil_r. split_and!; [done..|lia].
  - unfold ArrowBlockBuilder_add_block, py_update, py_raise.
    destruct blk as [t|rows]; simpl; [|done].
    intros [= <-]. simpl. split_and!; [done..|lia].
Qed.

Lemma ArrowBlockBuilder_run_state (calls : list (call L))
    (b b' : ArrowBlockBuilder L) :
  run ArrowBlockBuilder_call calls b = Return tt b' →
  _columns L b' = pending (added calls) (_columns L b) ∧
  _tables L b' = _tables L b ++ merged calls ∧
  _num_rows L b' =
    (_num_rows L b + Z.of_nat (length (added calls)) + total_rows (merged calls))%Z.
Proof.
  revert b. induction calls as [|c calls IH]; intros b.
  - intros [= <-]. simpl. rewrite app_nil_r. split_and!; [done..|lia].
  - cbn [run]. unfold py_bind at 1.
    destruct (ArrowBlockBuilder_call c b) as [[] b1|e b1] eqn:Hc; [|done].
    intros Hrun. apply ArrowBlockBuilder_call_state in Hc as (Hc1 & Hc2 & Hc3).
    apply IH in Hrun as (-> & -> & ->). rewrite Hc1, Hc2, Hc3.
    rewrite (added_cons c calls), (merged_cons c calls).
    rewrite pending_app, total_rows_app, length_app, app_assoc.
    split_and!; [done..|lia].
Qed.

End BuilderState.

(** ** The pending columns, key by key *)

(** The values bound to [k] in the mappings [ds] that have the key, in
    order. *)
Definition column_values (k : string) (ds : list (dict value)) : list value :=
  omap (λ d, dict_get d k) ds.

(** The mappings [ds] are dictionaries over one set of keys, those of
    [keys]. *)
Definition one_schema (keys : list string) (ds : list (dict value)) : Prop :=
  Forall (λ d, NoDup d.*1 ∧ d.*1 ≡ₚ keys) ds.

Lemma dict_get_set {V} (d : dict V) (k k' : string) (v : V) :
  dict_get (dict_set d k v) k' = if decide (k = k') then Some v else dict_get d k'.
Proof.
  rewrite !dict_get_to_map, dict_to_map_set. case_decide as Hk.
  - subst. apply lookup_insert_eq.
  - by apply lookup_insert_ne.
Qed.

Lemma append_items_get (d : dict value) (cols : dict (list value)) (k : string) :
  NoDup d.*1 →
  dict_get (append_items d cols) k =
  match dict_get d k with
  | Some v => Some (default [] (dict_get cols k) ++ [v])
  | None => dict_get cols k
  end.
Proof.
  unfold append_items. revert cols.
  induction d as [|[k1 v1] d IH]; intros cols Hd; simpl; [done|].
  apply NoDup_cons in Hd as [Hk1 Hd]. rewrite IH by done.
  unfold defaultdict_append. cbn [fst snd]. rewrite dict_get_set.
  destruct (decide (k1 = k)) as [->|Hne]; [|done].
  simpl in Hk1. by apply dict_get_None in Hk1 as ->.
Qed.

Lemma append_items_NoDup (d : dict value) (cols : dict (list value)) :
  NoDup cols.*1 → NoDup (append_items d cols).*1.
Proof.
  unfold append_items. revert cols.
  induction d as [|[k1 v1] d IH]; intros cols Hc; simpl; [done|].
  apply IH. by apply dict_set_NoDup.
Qed.

Lemma pending_NoDup (ds : list (dict value)) (cols : dict (list value)) :
  NoDup cols.*1 → NoDup (pending ds cols).*1.
Proof.
  unfold pending. revert cols. induction ds as [|d ds IH]; intros cols Hc;
    simpl; [done|].
  by apply IH, append_items_NoDup.
Qed.

Lemma pending_get (ds : list (dict value)) (cols : dict (list value)) (k : string) :
  Forall (λ d, NoDup d.*1) ds →
  dict_get (pending ds cols) k =
  match column_values k ds with
  | [] => dict_get cols k
  | vs => Some (default [] (dict_get cols k) ++ vs)
  end.
Proof.
  unfold pending, column_values. revert cols.
  induction ds as [|d ds IH]; intros cols Hds; csimpl; [done|].
  apply Forall_cons in Hds as [Hd Hds]. rewrite IH by done.
  rewrite append_items_get by done.
  destruct (dict_get d k) as [v|]; csimpl; [|done].
  destruct (omap _ ds) as [|v' vs]; csimpl; [done|].
  by rewrite <- app_assoc.
Qed.

Lemma column_values_in (keys : list string) (ds : list (dict value)) (k : string) :
  one_schema keys ds → k ∈ keys →
  Forall2 (λ v d, dict_get d k = Some v) (column_values k ds) ds.
Proof.
  unfold column_values. intros Hds Hk.
  induction Hds as [|d ds [Hd Hperm] _ IH]; csimpl; [constructor|].
  destruct (dict_get d k) as [v|] eqn:Hget; [by constructor|].
  apply dict_get_None in Hget. by rewrite Hperm in Hget.
Qed.

Lemma column_values_not_in (keys : list string) (ds : list (dict value)) (k : string) :
  one_schema keys ds → k ∉ keys → column_values k ds = [].
Proof.
  unfold column_values. intros Hds Hk.
  induction Hds as [|d ds [Hd Hperm] _ IH]; csimpl; [done|].
  rewrite <- Hperm in Hk. apply dict_get_None in Hk. by rewrite Hk.
Qed.

Lemma one_schema_NoDup keys ds :
  one_schema keys ds → Forall (λ d, NoDup d.*1) ds.
Proof. intros Hds. eapply Forall_impl; [exact Hds|]. by intros d [? ?]. Qed.

(** ** Facts about the model of the table library *)

Section Model.
Import PyArrow.
Implicit Types (t : table) (c : column).

(** The name and the data of a column, as an item of [to_pydict]. *)
Definition column_item c : string * list value := (col_name c, col_data c).

(** Every column of [t] holds [n] values. *)
Definition rect (n : nat) t : Prop := Forall (λ c, length (col_data c) = n) t.

(** The mapping form of row [i] of [t], read off [to_pydict]. *)
Definition row_dict t (i : nat) : dict value :=
  (λ kv, (kv.1, default VNone (kv.2 !! i))) <$> to_pydict t.

Lemma same_length_rect t :
  same_length t = true ↔ rect (Z.to_nat (num_rows t)) t.
Proof.
  unfold same_length, rect. rewrite forallb_forall, Forall_forall.
  split; intros H c Hc.
  - apply list_elem_of_In, H, bool_decide_eq_true in Hc. lia.
  - apply bool_decide_eq_true. apply list_elem_of_In in Hc.
    pose proof (H c Hc) as Hlen.
    destruct t as [|c0 t]; [by apply elem_of_nil in Hc|]. simpl in *. lia.
Qed.

Lemma arrays_of_items (cols : dict (list value)) t :
  arrays_of cols = Ok t → column_item <$> t = cols.
Proof.
  revert t. induction cols as [|[k vs] cols IH]; intros t; simpl.
  - by intros [= <-].
  - destruct (infer_dtype vs) as [ty|e]; [|done].
    destruct (arrays_of cols) as [t'|e]; [|done].
    intros [= <-]. csimpl. by rewrite (IH t').
Qed.

Lemma from_pydict_Ok (cols : dict (list value)) t :
  from_pydict cols = Ok t →
  column_item <$> t = cols ∧ same_length t = true.
Proof.
  unfold from_pydict. destruct (arrays_of cols) as [t'|e] eqn:Ha; [|done].
  destruct (same_length t') eqn:Hs; [|done].
  intros [= <-]. split; [by apply arrays_of_items|done].
Qed.

Lemma dict_set_fresh {V} (d : dict V) (k : string) (v : V) :
  k ∉ d.*1 → dict_set d k v = d ++ [(k, v)].
Proof.
  induction d as [|[k' v'] d IH]; csimpl; [done|].
  rewrite not_elem_of_cons. intros [Hne Hk].
  rewrite decide_False by done. by rewrite IH.
Qed.

Lemma to_pydict_from (acc : dict (list value)) t :
  NoDup (acc.*1 ++ (col_name <$> t)) →
  foldl (λ d c, dict_set d (col_name c) (col_data c)) acc t =
  acc ++ (column_item <$> t).
Proof.
  revert acc. induction t as [|c t IH]; intros acc Hnd; csimpl.
  - by rewrite app_nil_r.
  - assert (col_name c ∉ acc.*1) as Hc.
    { apply NoDup_app in Hnd as (_ & Hd & _). intros Hin.
      apply (Hd _ Hin). apply elem_of_cons; auto. }
    rewrite dict_set_fresh by done. rewrite IH.
    + by rewrite <- app_assoc.
    + rewrite fmap_app. csimpl. rewrite <- app_assoc. done.
Qed.

Lemma to_pydict_NoDup_names t :
  NoDup (col_name <$> t) → to_pydict t = column_item <$> t.
Proof. intros H. unfold to_pydict. by rewrite to_pydict_from. Qed.

Lemma to_pydict_NoDup t : NoDup (to_pydict t).*1.
Proof.
  unfold to_pydict. generalize (NoDup_nil_2 (A := string)).
  change (@nil string) with (([] : dict (list value)).*1).
  generalize ([] : dict (list value)).
  induction t as [|c t IH]; intros acc Hacc; simpl; [done|].
  by apply IH, dict_set_NoDup.
Qed.

Lemma dict_set_elem_of {V} (d : dict V) (k : string) (v : V) kv :
  kv ∈ dict_set d k v → kv ∈ d ∨ kv = (k, v).
Proof.
  induction d as [|[k' v'] d IH]; simpl.
  - rewrite list_elem_of_singleton. auto.
  - case_decide; rewrite !elem_of_cons.
    + intros [?|?]; auto.
    + intros [?|?]; [auto|]. destruct IH; auto.
Qed.

Lemma to_pydict_elem_of t kv :
  kv ∈ to_pydict t → ∃ c, c ∈ t ∧ kv = column_item c.
Proof.
  unfold to_pydict.
  assert (∀ acc : dict (list value),
    (∀ kv, kv ∈ acc → ∃ c, c ∈ t ∧ kv = column_item c) →
    ∀ t', t' ⊆ t →
    kv ∈ foldl (λ d c, dict_set d (col_name c) (col_data c)) acc t' →
    ∃ c, c ∈ t ∧ kv = column_item c) as Hgen.
  { intros acc Hacc t'. revert acc Hacc.
    induction t' as [|c t' IH]; intros acc Hacc Hsub; simpl; [by apply Hacc|].
    apply IH.
    - intros kv' [Hin| ->]%dict_set_elem_of; [by apply Hacc|].
      exists c. split; [|done]. apply Hsub, elem_of_cons; auto.
    - intros x Hx. apply Hsub, elem_of_cons; auto. }
  apply Hgen; [|done]. intros ? Hin. by apply elem_of_nil in Hin.
Qed.

Lemma dict_set_fmap {V W} (f : V → W) (d : dict V) (k : string) (v : V) :
  dict_set (prod_map id f <$> d) k (f v) = prod_map id f <$> dict_set d k v.
Proof.
  induction d as [|[k' v'] d IH]; csimpl; [done|].
  case_decide; csimpl; [done|]. by rewrite IH.
Qed.

Lemma to_pydict_slice t (offset len : Z) :
  to_pydict (slice t offset len) =
  prod_map id (λ vs, take (Z.to_nat len) (drop (Z.to_nat offset) vs))
    <$> to_pydict t.
Proof.
  unfold to_pydict, slice.
  change (@nil (string * list value)) with
    (prod_map id (λ vs, take (Z.to_nat len) (drop (Z.to_nat offset) vs))
       <$> ([] : dict (list value))) at 1.
  generalize ([] : dict (list value)).
  induction t as [|c t IH]; intros acc; csimpl; [done|].
  rewrite <- IH. f_equal.
  apply (dict_set_fmap
    (λ vs, take (Z.to_nat len) (drop (Z.to_nat offset) vs))).
Qed.

Lemma first_of_each_rows (items : dict (list value)) (acc : dict value) (i : nat) :
  NoDup (acc.*1 ++ items.*1) →
  Forall (λ kv, i < length kv.2) items →
  first_of_each (prod_map id (λ vs, take 1 (drop i vs)) <$> items) acc =
  Ok (acc ++ ((λ kv, (kv.1, default VNone (kv.2 !! i))) <$> items)).
Proof.
  revert acc. induction items as [|[k vs] items IH]; intros acc Hnd Hlen; csimpl.
  - by rewrite app_nil_r.
  - apply Forall_cons in Hlen as [Hvs Hlen]. simpl in Hvs.
    destruct (lookup_lt_is_Some_2 vs i Hvs) as [x Hx].
    rewrite (drop_S _ _ _ Hx), Hx. simpl.
    assert (k ∉ acc.*1) as Hk.
    { apply NoDup_app in Hnd as (_ & Hd & _). intros Hin.
      apply (Hd _ Hin). apply elem_of_cons; auto. }
    rewrite dict_set_fresh by done.
    rewrite IH; [|by rewrite fmap_app, <- app_assoc|done].
    by rewrite <- app_assoc.
Qed.

(** The view of row [i] of a rectangular table has a mapping form, the
    one that [row_dict] reads off the columns. *)
Lemma view_row t (i : nat) :
  same_length t = true → (Z.of_nat i < num_rows t)%Z →
  as_pydict pyarrow_model (view_at pyarrow_model t (Z.of_nat i)) =
  Ok (row_dict t i).
Proof.
  intros Hrect%same_length_rect Hi. unfold as_pydict, view_at. simpl.
  rewrite to_pydict_slice. change (Z.to_nat 1) with 1%nat. rewrite Nat2Z.id.
  rewrite first_of_each_rows; [done|apply to_pydict_NoDup|].
  apply Forall_forall. intros kv [c [Hc ->]]%to_pydict_elem_of. simpl.
  unfold rect in Hrect. rewrite Forall_forall in Hrect.
  rewrite (Hrect c Hc). lia.
Qed.

Lemma row_dict_get t (i : nat) (k : string) :
  dict_get (row_dict t i) k =
  (λ vs, default VNone (vs !! i)) <$> dict_get (to_pydict t) k.
Proof.
  unfold row_dict. induction (to_pydict t) as [|[k' vs] d IH]; csimpl; [done|].
  case_decide; [done|]. apply IH.
Qed.

Lemma schema_length t1 t2 : schema t2 = schema t1 → length t2 = length t1.
Proof.
  unfold schema. intros H. apply (f_equal length) in H.
  by rewrite !length_map in H.
Qed.

Lemma append_schema t1 t2 :
  length t2 = length t1 → schema (append_table t1 t2) = schema t1.
Proof.
  unfold schema, append_table. revert t2.
  induction t1 as [|c1 t1 IH]; intros [|c2 t2]; simpl; try done.
  intros [= Hlen]. by rewrite IH.
Qed.

Lemma append_rect t1 t2 (n1 n2 : nat) :
  rect n1 t1 → rect n2 t2 → rect (n1 + n2) (append_table t1 t2).
Proof.
  unfold rect, append_table. intros H1. revert t2.
  induction H1 as [|c1 t1 Hc1 _ IH]; intros t2 H2; simpl; [constructor|].
  destruct H2 as [|c2 t2 Hc2 H2]; simpl; [constructor|].
  constructor; [|by apply IH]. simpl. rewrite length_app. lia.
Qed.

Lemma append_num_rows t1 t2 :
  length t2 = length t1 →
  num_rows (append_table t1 t2) = (num_rows t1 + num_rows t2)%Z.
Proof.
  destruct t1 as [|c1 t1], t2 as [|c2 t2]; simpl; try done.
  intros _. rewrite length_app. lia.
Qed.

Lemma append_same_length t1 t2 :
  schema t2 = schema t1 →
  same_length t1 = true → same_length t2 = true →
  same_length (append_table t1 t2) = true.
Proof.
  intros Hs%schema_length H1%same_length_rect H2%same_length_rect.
  apply same_length_rect. rewrite append_num_rows by done.
  assert (0 ≤ num_rows t1)%Z by (destruct t1; simpl; lia).
  assert (0 ≤ num_rows t2)%Z by (destruct t2; simpl; lia).
  rewrite Z2Nat.inj_add by done. by apply append_rect.
Qed.

Lemma slice_append_l t1 t2 (n1 i : nat) :
  length t2 = length t1 → rect n1 t1 → i < n1 →
  slice (append_table t1 t2) (Z.of_nat i) 1 = slice t1 (Z.of_nat i) 1.
Proof.
  unfold slice, append_table, rect. rewrite !Nat2Z.id. intros Hlen H1 Hi.
  revert t2 Hlen.
  induction H1 as [|c1 t1 Hc1 _ IH]; intros [|c2 t2]; simpl; try done.
  intros [= Hlen]. rewrite IH by done. do 2 f_equal.
  rewrite drop_app_le by lia. rewrite take_app_le; [done|].
  rewrite length_drop. lia.
Qed.

Lemma slice_append_r t1 t2 (n1 j : nat) :
  schema t2 = schema t1 → rect n1 t1 →
  slice (append_table t1 t2) (Z.of_nat (n1 + j)) 1 = slice t2 (Z.of_nat j) 1.
Proof.
  unfold slice, append_table, rect, schema. rewrite !Nat2Z.id. intros Hs H1.
  revert t2 Hs.
  induction H1 as [|c1 t1 Hc1 _ IH]; intros [|c2 t2]; simpl; try done.
  intros [= Hn Ht Hs]. rewrite IH by done. f_equal.
  rewrite Hn, Ht. f_equal.
  rewrite drop_app_ge by lia. do 2 f_equal. lia.
Qed.

End Model.

(** ** The rows of a block, as iteration shows them *)

Section Rows.
Context (L : ArrowLib).

(** The mapping forms of the row views that [iter_rows] yields for the
    block [t], in the order of iteration. *)
Definition rows_of (t : Table L) : list (result (dict value)) :=
  match list_of_iter L {| _table := t |} (iter_rows L {| _table := t |}) with
  | Return views _ => as_pydict L <$> views
  | Raise _ _ => []
  end.

(** Two rows that both have a mapping form, and the same mapping. *)
Definition same_row (r1 r2 : result (dict value)) : Prop :=
  match r1, r2 with
  | Ok d1, Ok d2 => dict_to_map d1 = dict_to_map d2
  | _, _ => False
  end.

Lemma rows_of_views (t : Table L) :
  rows_of t =
  (λ i, as_pydict L (view_at L t i)) <$> seqZ 0 (Table_num_rows L t).
Proof. unfold rows_of. rewrite list_of_iter_rows. by rewrite <- list_fmap_compose. Qed.

End Rows.

Section ModelRows.
Import PyArrow.
Implicit Types (t : table) (c : column).

Lemma num_rows_nonneg t : (0 ≤ num_rows t)%Z.
Proof. destruct t; simpl; lia. Qed.

Lemma rows_of_model t :
  same_length t = true →
  rows_of pyarrow_model t =
  (λ i, Ok (row_dict t i)) <$> seq 0 (Z.to_nat (num_rows t)).
Proof.
  intros Ht. rewrite rows_of_views. simpl. unfold seqZ.
  rewrite <- list_fmap_compose. apply list_fmap_ext.
  intros i k Hk. apply lookup_seq in Hk as [-> Hlt]. simpl.
  rewrite Z.add_0_r. apply view_row; [done|]. lia.
Qed.

Lemma rows_of_append t1 t2 :
  schema t2 = schema t1 →
  same_length t1 = true → same_length t2 = true →
  rows_of pyarrow_model (append_table t1 t2) =
  rows_of pyarrow_model t1 ++ rows_of pyarrow_model t2.
Proof.
  intros Hs H1 H2. pose proof (schema_length _ _ Hs) as Hlen.
  pose proof (proj1 (same_length_rect t1) H1) as Hr1.
  rewrite !rows_of_views. simpl. rewrite append_num_rows by done.
  pose proof (num_rows_nonneg t1). pose proof (num_rows_nonneg t2).
  rewrite seqZ_app by done. rewrite fmap_app. f_equal.
  - apply list_fmap_ext. intros i k Hk.
    apply lookup_seqZ in Hk as [-> Hlt]. unfold view_at. simpl.
    replace (0 + Z.of_nat i)%Z with (Z.of_nat i) by lia.
    rewrite (slice_append_l t1 t2 (Z.to_nat (num_rows t1)) i); [done..|lia].
  - rewrite Z.add_0_l. unfold seqZ. rewrite <- !list_fmap_compose.
    apply list_fmap_ext. intros i k Hk.
    apply lookup_seq in Hk as [-> Hlt]. unfold view_at. simpl.
    replace (Z.of_nat i + num_rows t1)%Z
      with (Z.of_nat (Z.to_nat (num_rows t1) + i)) by lia.
    rewrite Z.add_0_r.
    by rewrite (slice_append_r t1 t2 (Z.to_nat (num_rows t1)) i).
Qed.

(** Concatenation keeps the rows of its tables, table after table. *)
Lemma foldl_append_rows (ts : list table) t :
  same_length t = true →
  Forall (λ t', same_length t' = true) ts →
  Forall (λ t', schema t' = schema t) ts →
  rows_of pyarrow_model (foldl append_table t ts) =
    rows_of pyarrow_model t ++ (ts ≫= rows_of pyarrow_model) ∧
  num_rows (foldl append_table t ts) =
    (num_rows t + total_rows pyarrow_model ts)%Z ∧
  same_length (foldl append_table t ts) = true.
Proof.
  revert t. induction ts as [|t' ts IH]; intros t Ht Hts Hss; simpl.
  - rewrite app_nil_r. split_and!; [done| lia |done].
  - apply Forall_cons in Hts as [Ht' Hts]. apply Forall_cons in Hss as [Hs Hss].
    destruct (IH (append_table t t')) as (IH1 & IH2 & IH3).
    + by apply append_same_length.
    + done.
    + eapply Forall_impl; [exact Hss|]. intros t'' ->. symmetry.
      by apply append_schema, schema_length.
    + rewrite IH1, IH2, rows_of_append, append_num_rows
        by (done || by apply schema_length).
      rewrite <- app_assoc. split_and!; [done| lia |done].
Qed.

Lemma concat_rows (ts : list table) T :
  Forall (λ t, same_length t = true) ts →
  concat ts = Ok T →
  rows_of pyarrow_model T = ts ≫= rows_of pyarrow_model ∧
  num_rows T = total_rows pyarrow_model ts ∧
  same_length T = true.
Proof.
  unfold concat. destruct ts as [|t ts]; [done|].
  intros [Ht Hts]%Forall_cons.
  destruct (forallb _ ts) eqn:Hs; [|done]. intros [= <-].
  apply foldl_append_rows; [done..|].
  rewrite forallb_forall in Hs. apply Forall_forall. intros t' Ht'.
  apply list_elem_of_In, Hs in Ht'. by apply bool_decide_eq_true in Ht'.
Qed.

End ModelRows.

(** ** The table materialized from the pending columns *)

Section Materialized.
Import PyArrow.
Implicit Types (t : table) (ds : list (dict value)).

Lemma pending_get_nil ds (k : string) :
  Forall (λ d, NoDup d.*1) ds →
  dict_get (pending ds []) k =
  match column_values k ds with [] => None | vs => Some vs end.
Proof. intros Hds. rewrite pending_get by done. by destruct (column_values k ds). Qed.

(** With one non-empty set of keys, something is pending as soon as a
    mapping was added. *)
Lemma pending_nil_inv (keys : list string) ds :
  one_schema keys ds → keys ≠ [] → pending ds [] = [] → ds = [].
Proof.
  intros Hds Hkeys Hp. destruct keys as [|k keys]; [done|].
  destruct ds as [|d ds]; [done|]. exfalso.
  pose proof (column_values_in _ _ k Hds ltac:(apply elem_of_cons; auto)) as HF.
  pose proof (pending_get_nil (d :: ds) k (one_schema_NoDup _ _ Hds)) as Hget.
  rewrite Hp in Hget.
  destruct (column_values k (d :: ds)) as [|v vs]; [|done].
  by apply Forall2_length in HF.
Qed.

Lemma materialized_rows (keys : list string) ds t :
  one_schema keys ds →
  pending ds [] ≠ [] →
  from_pydict (pending ds []) = Ok t →
  same_length t = true ∧
  num_rows t = Z.of_nat (length ds) ∧
  Forall2 same_row (rows_of pyarrow_model t) (Ok <$> ds).
Proof.
  intros Hds Hne Hfrom.
  pose proof (one_schema_NoDup _ _ Hds) as Hnd.
  apply from_pydict_Ok in Hfrom as [Hitems Hsame].
  set (cols := pending ds []) in *.
  assert (NoDup cols.*1) as Hcols by (apply pending_NoDup; constructor).
  assert (to_pydict t = cols) as Hdict.
  { rewrite to_pydict_NoDup_names; [done|].
    rewrite <- Hitems in Hcols. unfold column_item in Hcols.
    by rewrite <- list_fmap_compose in Hcols. }
  assert (num_rows t = Z.of_nat (length ds)) as Hrows.
  { destruct t as [|c t]; [by rewrite <- Hitems in Hne|]. simpl.
    pose proof (pending_get_nil ds (col_name c) Hnd) as Hget.
    fold cols in Hget. rewrite <- Hitems in Hget. simpl in Hget.
    rewrite decide_True in Hget by done.
    destruct (column_values (col_name c) ds) as [|v vs] eqn:Hcv; [done|].
    injection Hget as Hdata.
    destruct (decide (col_name c ∈ keys)) as [Hin|Hout].
    - pose proof (column_values_in _ _ _ Hds Hin) as HF.
      apply Forall2_length in HF. rewrite Hdata, <- Hcv. lia.
    - by rewrite (column_values_not_in _ _ _ Hds Hout) in Hcv. }
  split; [done|]. split; [done|].
  rewrite rows_of_model by done. rewrite Hrows, Nat2Z.id.
  apply Forall2_same_length_lookup. split.
  { by rewrite !length_fmap, length_seq. }
  intros i r1 r2 Hr1 Hr2.
  apply list_lookup_fmap_Some in Hr1 as (j & -> & Hj).
  apply lookup_seq in Hj as [-> Hlt]. simpl.
  apply list_lookup_fmap_Some in Hr2 as (d & -> & Hd). simpl.
  apply map_eq. intros k. rewrite <- !dict_get_to_map.
  rewrite row_dict_get, Hdict. fold cols. unfold cols.
  rewrite pending_get_nil by done.
  pose proof (proj1 (Forall_lookup _ _) Hds i d Hd) as [Hdn Hdk].
  destruct (decide (k ∈ keys)) as [Hin|Hout].
  - pose proof (column_values_in _ _ _ Hds Hin) as HF.
    destruct (Forall2_lookup_r _ _ _ _ _ HF Hd) as (v & Hv & Hdv).
    rewrite Hdv. destruct (column_values k ds) as [|v' vs]; [done|].
    simpl. by rewrite Hv.
  - rewrite (column_values_not_in _ _ _ Hds Hout). simpl. symmetry.
    apply dict_get_None. by rewrite Hdk.
Qed.

End Materialized.

(** ** What [build] returns, on the model of the library *)

Section Build.
Import PyArrow.
Implicit Types (t : table) (ds : list (dict value)).

(** The rows of every contribution in the order of the calls: the mapping
    of each [add], the rows of each merged table.  This is the order that
    the specification words as "strictly according to call order". *)
Definition rows_in_call_order (calls : list (call pyarrow_model))
  : list (result (dict value)) :=
  calls ≫= λ c,
    match c with
    | Add x => Ok <$> item_rows pyarrow_model x
    | AddBlock (ArrowBlock t) => rows_of pyarrow_model t
    | AddBlock (SimpleBlock _) => []
    end.

Lemma rows_of_nil : rows_of pyarrow_model ([] : table) = [].
Proof. by rewrite rows_of_model. Qed.

Lemma same_row_rows_of t :
  same_length t = true →
  Forall2 same_row (rows_of pyarrow_model t) (rows_of pyarrow_model t).
Proof.
  intros Ht. rewrite rows_of_model by done.
  apply Forall2_fmap, Forall_Forall2_diag, Forall_forall. by intros.
Qed.

Lemma same_row_tables (ts : list table) :
  Forall (λ t, same_length t = true) ts →
  Forall2 same_row (ts ≫= rows_of pyarrow_model) (ts ≫= rows_of pyarrow_model).
Proof.
  induction 1 as [|t ts Ht _ IH]; csimpl; [constructor|].
  apply Forall2_app; [by apply same_row_rows_of|done].
Qed.

(** [build] leaves the builder as it was, and its table holds the rows of
    the materialized table, if any, then those of the merged tables. *)
Local Arguments concat : simpl never.
Local Arguments from_pydict : simpl never.

Lemma build_rows (b b' : ArrowBlockBuilder pyarrow_model) T :
  Forall (λ t, same_length t = true) (_tables _ b) →
  ArrowBlockBuilder_build pyarrow_model b = Return T b' →
  b' = b ∧
  ∃ ts0 : list table,
    (_columns _ b = [] ∧ ts0 = [] ∨
     ∃ t0, _columns _ b ≠ [] ∧ from_pydict (_columns _ b) = Ok t0 ∧ ts0 = [t0]) ∧
    rows_of pyarrow_model T = (ts0 ++ _tables _ b) ≫= rows_of pyarrow_model ∧
    num_rows T = total_rows pyarrow_model (ts0 ++ _tables _ b).
Proof.
  destruct b as [cols ts n]. simpl. intros Hts.
  unfold ArrowBlockBuilder_build, py_bind, py_read, py_call, py_ret. simpl.
  destruct cols as [|c cols].
  - simpl. destruct ts as [|t [|t' ts]]; simpl.
    + intros [= <- <-]. split; [done|]. exists []. split; [by left|].
      by rewrite rows_of_nil.
    + intros [= <- <-]. split; [done|]. exists []. split; [by left|].
      csimpl. rewrite app_nil_r. split; [done|lia].
    + match goal with |- context [concat ?l] =>
        destruct (concat l) as [T'|e] eqn:Hc; [|done] end.
      intros [= <- <-]. split; [done|]. exists []. split; [by left|].
      apply concat_rows in Hc as (? & ? & ?); done.
  - match goal with |- context [from_pydict ?l] =>
      destruct (from_pydict l) as [t0|e] eqn:Hfrom; [|done] end. simpl.
    pose proof (from_pydict_Ok _ _ Hfrom) as [_ Ht0].
    destruct ts as [|t ts]; simpl.
    + intros [= <- <-]. split; [done|]. exists [t0].
      split; [right; by exists t0|]. csimpl. rewrite app_nil_r.
      split; [done|lia].
    + match goal with |- context [concat ?l] =>
        destruct (concat l) as [T'|e] eqn:Hc; [|done] end.
      intros [= <- <-]. split; [done|]. exists [t0].
      split; [right; by exists t0|].
      apply concat_rows in Hc as (? & ? & ?); [done|].
      by constructor.
Qed.

End Build.

(** ** The claims about built blocks *)

Section BuiltBlocks.
Import PyArrow.
Implicit Types (t : table) (ds : list (dict value)).

Lemma added_dicts ds :
  added pyarrow_model (Add ∘ IDict <$> ds) = ds.
Proof.
  induction ds as [|d ds IH]; [done|].
  rewrite fmap_cons, added_cons, IH. done.
Qed.

Lemma merged_dicts ds :
  merged pyarrow_model (Add ∘ IDict <$> ds) = [].
Proof.
  induction ds as [|d ds IH]; [done|].
  rewrite fmap_cons, merged_cons, IH. done.
Qed.

(** What was built by a sequence of calls on a fresh builder: the rows of
    the table materialized from the pending columns, if any, then the
    rows of the merged tables. *)
Lemma built_rows (calls : list (call pyarrow_model)) T b' :
  Forall (λ t, same_length t = true) (merged pyarrow_model calls) →
  py_bind (run ArrowBlockBuilder_call calls)
          (λ _, ArrowBlockBuilder_build pyarrow_model)
          (ArrowBlockBuilder___init__ pyarrow_model) = Return T b' →
  _num_rows _ b' =
    (Z.of_nat (length (added pyarrow_model calls)) +
     total_rows pyarrow_model (merged pyarrow_model calls))%Z ∧
  ∃ ts0 : list table,
    (pending (added pyarrow_model calls) [] = [] ∧ ts0 = [] ∨
     ∃ t0, pending (added pyarrow_model calls) [] ≠ [] ∧
           from_pydict (pending (added pyarrow_model calls) []) = Ok t0 ∧
           ts0 = [t0]) ∧
    rows_of pyarrow_model T =
      (ts0 ++ merged pyarrow_model calls) ≫= rows_of pyarrow_model ∧
    num_rows T = total_rows pyarrow_model (ts0 ++ merged pyarrow_model calls).
Proof.
  intros Hm. unfold py_bind at 1.
  destruct (run _ calls _) as [[] b|e b] eqn:Hrun; [|done].
  apply ArrowBlockBuilder_run_state in Hrun as (Hc & Ht & Hn). simpl in *.
  intros Hb. apply build_rows in Hb as [-> Hb]; [|by rewrite Ht].
  split; [rewrite Hn; lia|]. by rewrite Hc, Ht in Hb.
Qed.

(** C1 (amended): the block built after any interleaving of [add] and
    [add_block] holds the rows given to [add] first, in call order, and
    after them the rows of the merged tables in the order of their
    [add_block] calls; its row count is the sum of all contributed rows.
    The added mappings share one non-empty set of keys, and the merged
    tables are rectangular. *)
Theorem C1_added_rows_then_merged_rows
    (keys : list string) (calls : list (call pyarrow_model)) T b' :
  one_schema keys (added pyarrow_model calls) →
  keys ≠ [] →
  Forall (λ t, same_length t = true) (merged pyarrow_model calls) →
  py_bind (run ArrowBlockBuilder_call calls)
          (λ _, ArrowBlockBuilder_build pyarrow_model)
          (ArrowBlockBuilder___init__ pyarrow_model) = Return T b' →
  Forall2 same_row (rows_of pyarrow_model T)
    ((Ok <$> added pyarrow_model calls) ++
     (merged pyarrow_model calls ≫= rows_of pyarrow_model)) ∧
  num_rows T =
    (Z.of_nat (length (added pyarrow_model calls)) +
     total_rows pyarrow_model (merged pyarrow_model calls))%Z.
Proof.
  intros Hds Hkeys Hm Hbuilt.
  apply built_rows in Hbuilt as (_ & ts0 & Hts0 & Hrows & Hn); [|done].
  rewrite Hrows, Hn, bind_app, total_rows_app.
  destruct Hts0 as [[Hp ->]|(t0 & Hp & Hfrom & ->)].
  - apply (pending_nil_inv keys) in Hp; [|done..]. rewrite Hp. simpl.
    split; [|done]. by apply same_row_tables.
  - destruct (materialized_rows keys _ t0 Hds Hp Hfrom) as (_ & Hn0 & Hr0).
    csimpl. rewrite app_nil_r. split.
    + apply Forall2_app; [done|]. by apply same_row_tables.
    + lia.
Qed.

(** C6: a block built from mappings over one set of keys is enumerated by
    [iter_rows] as one row view per row index, in order; the view at each
    index has a mapping form, and that form denotes the same mapping as
    the input row at that index.  When the set of keys is not empty there
    are as many rows as inputs. *)
Theorem C6_iter_rows_round_trip (keys : list string) ds T b' :
  one_schema keys ds →
  py_bind (run ArrowBlockBuilder_call (Add ∘ IDict <$> ds))
          (λ _, ArrowBlockBuilder_build pyarrow_model)
          (ArrowBlockBuilder___init__ pyarrow_model) = Return T b' →
  (∃ it,
     list_of_iter pyarrow_model {| _table := T |}
                  (iter_rows pyarrow_model {| _table := T |}) =
     Return (view_at pyarrow_model T <$> seqZ 0 (num_rows T)) it) ∧
  (keys ≠ [] → num_rows T = Z.of_nat (length ds)) ∧
  (∀ i : nat, (Z.of_nat i < num_rows T)%Z →
     ∃ d r,
       ds !! i = Some d ∧
       as_pydict pyarrow_model (view_at pyarrow_model T (Z.of_nat i)) = Ok r ∧
       dict_to_map r = dict_to_map d).
Proof.
  intros Hds Hbuilt. split.
  { eexists. apply (list_of_iter_rows pyarrow_model). }
  apply built_rows in Hbuilt as (_ & ts0 & Hts0 & Hrows & Hn);
    [|by rewrite merged_dicts].
  rewrite added_dicts in Hts0. rewrite merged_dicts, app_nil_r in Hrows, Hn.
  destruct Hts0 as [[Hp ->]|(t0 & Hp & Hfrom & ->)].
  - simpl in Hn. split; [|intros; lia].
    intros Hkeys. apply (pending_nil_inv keys) in Hp; [|done..].
    by rewrite Hp, Hn.
  - destruct (materialized_rows keys _ t0 Hds Hp Hfrom) as (_ & Hn0 & Hr0).
    simpl in Hn. rewrite Z.add_0_r in Hn. csimpl in Hrows.
    rewrite app_nil_r in Hrows. rewrite <- Hrows in Hr0.
    split; [intros _; lia|]. intros i Hi.
    rewrite rows_of_views in Hr0. simpl in Hr0.
    destruct (lookup_lt_is_Some_2 ds i ltac:(lia)) as [d Hd].
    assert (((λ j, as_pydict pyarrow_model (view_at pyarrow_model T j))
               <$> seqZ 0 (num_rows T)) !! i =
            Some (as_pydict pyarrow_model
                    (view_at pyarrow_model T (Z.of_nat i)))) as Hview.
    { rewrite list_lookup_fmap, (lookup_seqZ_lt _ _ i) by lia. done. }
    pose proof (Forall2_lookup_lr _ _ _ i _ _ Hr0 Hview
                  ltac:(by rewrite list_lookup_fmap, Hd)) as Hsame.
    destruct (as_pydict _ _) as [r|e]; [|done].
    by exists d, r.
Qed.

End BuiltBlocks.

(** ** Concrete scenarios *)

Section Scenarios.
Import PyArrow.

(** The mapping [{"a": n}]. *)
Definition row_a (n : Z) : dict value := [("a"%string, VInt n)].

(** The table with the single column ["a"] holding the integers [ns]. *)
Definition table_a (ns : list Z) : table :=
  [{| col_name := "a"; col_type := TInt64; col_data := VInt <$> ns |}].

(** [add_block] of a one-row table, then [add] of a mapping. *)
Definition block_then_row : list (call pyarrow_model) :=
  [AddBlock (ArrowBlock (table_a [1%Z] : Table pyarrow_model));
   Add (IDict (row_a 2))].

(** C1, as stated, fails: after [add_block] of the row [{"a": 1}] and then
    [add] of [{"a": 2}], the built block holds [{"a": 2}] before
    [{"a": 1}], which is not the order of the calls. *)
Lemma C1_rows_not_in_call_order :
  ∃ T b',
    py_bind (run ArrowBlockBuilder_call block_then_row)
            (λ _, ArrowBlockBuilder_build pyarrow_model)
            (ArrowBlockBuilder___init__ pyarrow_model) = Return T b' ∧
    rows_of pyarrow_model T = [Ok (row_a 2); Ok (row_a 1)] ∧
    rows_in_call_order block_then_row = [Ok (row_a 1); Ok (row_a 2)] ∧
    ¬ Forall2 same_row (rows_of pyarrow_model T)
                       (rows_in_call_order block_then_row).
Proof.
  eexists _, _. split; [reflexivity|].
  assert (rows_of pyarrow_model (table_a [2%Z; 1%Z] : Table pyarrow_model) =
          [Ok (row_a 2); Ok (row_a 1)]) as Hrows by (by vm_compute).
  assert (rows_in_call_order block_then_row = [Ok (row_a 1); Ok (row_a 2)])
    as Horder by (by vm_compute).
  split; [exact Hrows|]. split; [exact Horder|].
  change (¬ Forall2 same_row
            (rows_of pyarrow_model (table_a [2%Z; 1%Z] : Table pyarrow_model))
            (rows_in_call_order block_then_row)).
  rewrite Hrows, Horder. intros H.
  apply Forall2_cons_1 in H as [H _]. unfold same_row in H.
  assert (dict_get (row_a 2) "a" = dict_get (row_a 1) "a") as Ha
    by (by rewrite !dict_get_to_map, H).
  discriminate Ha.
Qed.

(** [add] of two mappings over different keys. *)
Definition rows_over_different_keys : list (call pyarrow_model) :=
  [Add (IDict (row_a 1)); Add (IDict [("b"%string, VInt 2)])].

(** [add_block] of a one-row table, then [add] of two empty mappings. *)
Definition block_then_empty_rows : list (call pyarrow_model) :=
  [AddBlock (ArrowBlock (table_a [1%Z] : Table pyarrow_model));
   Add (IDict []); Add (IDict [])].

(** Why the amended C1 asks that the added mappings share one non-empty set
    of keys, for the order of the rows as for their count: two mappings
    over different keys are built into one row that is neither of them,
    and empty mappings are counted and leave no row in the block. *)
Lemma one_key_set_is_needed :
  (∃ T b',
     py_bind (run ArrowBlockBuilder_call rows_over_different_keys)
             (λ _, ArrowBlockBuilder_build pyarrow_model)
             (ArrowBlockBuilder___init__ pyarrow_model) = Return T b' ∧
     rows_of pyarrow_model T =
       [Ok [("a"%string, VInt 1); ("b"%string, VInt 2)]] ∧
     added pyarrow_model rows_over_different_keys =
       [row_a 1; [("b"%string, VInt 2)]] ∧
     _num_rows _ b' = 2%Z) ∧
  (∃ T b',
     py_bind (run ArrowBlockBuilder_call block_then_empty_rows)
             (λ _, ArrowBlockBuilder_build pyarrow_model)
             (ArrowBlockBuilder___init__ pyarrow_model) = Return T b' ∧
     rows_of pyarrow_model T = [Ok (row_a 1)] ∧
     added pyarrow_model block_then_empty_rows = [[]; []] ∧
     _num_rows _ b' = 3%Z).
Proof.
  split; eexists _, _; (split; [reflexivity|]); by vm_compute.
Qed.

(** C2 fails on the code: after [add({})] the builder counts one row,
    and the block it builds has none. *)
Lemma C2_empty_mapping_counted_not_built :
  ∃ b,
    ArrowBlockBuilder_add pyarrow_model (IDict [])
      (ArrowBlockBuilder___init__ pyarrow_model) = Return tt b ∧
    ArrowBlockBuilder_num_rows pyarrow_model b = Return 1%Z b ∧
    ArrowBlockBuilder_build pyarrow_model b = Return ([] : table) b ∧
    num_rows [] = 0%Z.
Proof. eexists. split_and!; reflexivity. Qed.

(** C4, as stated, fails: the error that [add("x")] raises is a
    [ValueError], which is not an instance of [TypeError]. *)
Lemma C4_error_is_not_a_TypeError :
  ArrowBlockBuilder_add pyarrow_model (IValue (VStr "x"))
    (ArrowBlockBuilder___init__ pyarrow_model) =
    Raise ValueError (ArrowBlockBuilder___init__ pyarrow_model) ∧
  isinstance ValueError TypeError = false.
Proof. split; reflexivity. Qed.

(** C5: adding [{"a": 1}], [{"a": 2}], [{"a": 3}] to a fresh delegating
    builder and building yields a columnar block of 3 rows whose only
    column is ["a"], holding 1, 2, 3 in that order. *)
Theorem C5_scenario_A :
  ∃ T st,
    py_bind (run DelegatingArrowBlockBuilder_call
               [Add (IDict (row_a 1)); Add (IDict (row_a 2));
                Add (IDict (row_a 3))])
            (λ _, DelegatingArrowBlockBuilder_build pyarrow_model)
            (DelegatingArrowBlockBuilder___init__ pyarrow_model) =
      Return (ArrowBlock T) st ∧
    num_rows T = 3%Z ∧
    to_pydict T = [("a"%string, [VInt 1; VInt 2; VInt 3])] ∧
    rows_of pyarrow_model T = [Ok (row_a 1); Ok (row_a 2); Ok (row_a 3)].
Proof.
  exists (table_a [1; 2; 3]%Z). eexists.
  split_and!; [reflexivity..|by vm_compute].
Qed.

(** C7: a fresh delegating builder reports 0 rows, and [build] on it
    installs an Arrow builder and returns the table that the library makes
    from no columns; in the model of the library that table has no rows
    and no columns. *)
Theorem C7_fresh_builder :
  (∀ L : ArrowLib,
     DelegatingArrowBlockBuilder_num_rows L
       (DelegatingArrowBlockBuilder___init__ L) =
       Return 0%Z (DelegatingArrowBlockBuilder___init__ L) ∧
     DelegatingArrowBlockBuilder_build L
       (DelegatingArrowBlockBuilder___init__ L) =
       match Table_from_pydict L [] with
       | Ok t => Return (ArrowBlock t)
                   {| _builder := Some (BArrow (ArrowBlockBuilder___init__ L)) |}
       | Err e => Raise e
                   {| _builder := Some (BArrow (ArrowBlockBuilder___init__ L)) |}
       end) ∧
  DelegatingArrowBlockBuilder_build pyarrow_model
    (DelegatingArrowBlockBuilder___init__ pyarrow_model) =
    Return (ArrowBlock ([] : Table pyarrow_model))
      {| _builder := Some (BArrow (ArrowBlockBuilder___init__ pyarrow_model)) |} ∧
  num_rows [] = 0%Z ∧ schema [] = [] ∧ rows_of pyarrow_model ([] : table) = [].
Proof.
  split_and!; [|reflexivity..|apply rows_of_nil].
  intros L. split; [reflexivity|].
  unfold DelegatingArrowBlockBuilder_build, py_bind, py_read, set_builder,
    py_update, on_builder, on_arrow, ArrowBlockBuilder_build, py_call, py_ret.
  simpl. by destruct (Table_from_pydict L []).
Qed.

End Scenarios.

(** ** The theorems at concrete inputs *)

Section Witnesses.
Import PyArrow.

Lemma one_schema_row_a (ns : list Z) :
  one_schema ["a"%string] (row_a <$> ns).
Proof.
  apply Forall_fmap, Forall_forall. intros n _. simpl.
  split; [apply NoDup_singleton|done].
Defined.

(** Scenario B: ["x"] first, then [{"a": 1}]. *)
Lemma C3_witness :
  DelegatingArrowBlockBuilder_add pyarrow_model (IValue (VStr "x"))
    (DelegatingArrowBlockBuilder___init__ pyarrow_model) =
    Return tt {| _builder := Some (BSimple {| _items := [IValue (VStr "x")] |}) |} ∧
  run DelegatingArrowBlockBuilder_call
      (Add <$> [IValue (VStr "x"); IDict (row_a 1)])
      (DelegatingArrowBlockBuilder___init__ pyarrow_model) =
    Return tt {| _builder := Some (BSimple
      {| _items := [IValue (VStr "x"); IDict (row_a 1)] |}) |}.
Proof.
  apply (C3_first_non_mapping_selects_simple pyarrow_model
           (IValue (VStr "x")) [IDict (row_a 1)]).
  reflexivity.
Defined.

(** A mapping whose value is an object that the library cannot type. *)
Lemma C8_witness :
  DelegatingArrowBlockBuilder_add pyarrow_model
      (IDict [("a"%string, VObject 1)])
      (DelegatingArrowBlockBuilder___init__ pyarrow_model) =
    Return tt {| _builder := Some (BSimple
      {| _items := [IDict [("a"%string, VObject 1)]] |}) |}.
Proof.
  apply (C8_trial_failure_falls_back_to_simple pyarrow_model
           [("a"%string, VObject 1)]
           {| _columns := [("a"%string, [VObject 1])]; _tables := [];
              _num_rows := 1 |}
           {| _columns := [("a"%string, [VObject 1])]; _tables := [];
              _num_rows := 1 |}
           ArrowInvalid); reflexivity.
Defined.

(** Objects that all have the default [object.__eq__]. *)
#[local] Instance default_objects : Objects := λ _ _, None.

(** Two one-row tables with the same columns in different orders. *)
Definition table_ab : table :=
  [{| col_name := "a"; col_type := TInt64; col_data := [VInt 1] |};
   {| col_name := "b"; col_type := TInt64; col_data := [VInt 2] |}].

Definition table_ba : table :=
  [{| col_name := "b"; col_type := TInt64; col_data := [VInt 2] |};
   {| col_name := "a"; col_type := TInt64; col_data := [VInt 1] |}].

Lemma C9_witness :
  ∃ b : bool,
    ArrowRow___eq__ pyarrow_model {| _row := table_ab : Table pyarrow_model |}
      (IArrowRow {| _row := table_ba : Table pyarrow_model |}) = Ok b ∧
    (b = true ↔
     dict_to_map [("a"%string, VInt 1); ("b"%string, VInt 2)] =
     dict_to_map [("b"%string, VInt 2); ("a"%string, VInt 1)]).
Proof.
  apply (C9_row_views_equal_iff_mappings_equal pyarrow_model
           {| _row := table_ab : Table pyarrow_model |}
           {| _row := table_ba : Table pyarrow_model |}); reflexivity.
Defined.

Lemma C10_witness :
  ArrowBlockBuilder_build pyarrow_model
    {| _columns := []; _tables := [table_ab : Table pyarrow_model];
       _num_rows := 1 |} =
  Return (table_ab : Table pyarrow_model)
    {| _columns := []; _tables := [table_ab : Table pyarrow_model];
       _num_rows := 1 |}.
Proof.
  apply (proj1 (proj2 (C10_single_table_returned_as_is pyarrow_model)));
    reflexivity.
Defined.

Lemma C1_witness :
  Forall2 same_row
    (rows_of pyarrow_model (table_a [2; 1]%Z : Table pyarrow_model))
    ((Ok <$> added pyarrow_model block_then_row) ++
     (merged pyarrow_model block_then_row ≫= rows_of pyarrow_model)) ∧
  num_rows (table_a [2; 1]%Z) =
    (Z.of_nat (length (added pyarrow_model block_then_row)) +
     total_rows pyarrow_model (merged pyarrow_model block_then_row))%Z.
Proof.
  apply (C1_added_rows_then_merged_rows ["a"%string] block_then_row
           (table_a [2; 1]%Z)
           {| _columns := [("a"%string, [VInt 2])];
              _tables := [table_a [1%Z] : Table pyarrow_model];
              _num_rows := 2 |}).
  - exact (one_schema_row_a [2%Z]).
  - discriminate.
  - repeat constructor.
  - reflexivity.
Defined.

Lemma C6_witness :
  (∃ it,
     list_of_iter pyarrow_model {| _table := table_a [1; 2]%Z : Table pyarrow_model |}
                  (iter_rows pyarrow_model {| _table := table_a [1; 2]%Z : Table pyarrow_model |}) =
     Return (view_at pyarrow_model (table_a [1; 2]%Z : Table pyarrow_model)
               <$> seqZ 0 (num_rows (table_a [1; 2]%Z))) it) ∧
  (["a"%string] ≠ [] →
   num_rows (table_a [1; 2]%Z) = Z.of_nat (length [row_a 1; row_a 2])) ∧
  (∀ i : nat, (Z.of_nat i < num_rows (table_a [1; 2]%Z))%Z →
     ∃ d r,
       [row_a 1; row_a 2] !! i = Some d ∧
       as_pydict pyarrow_model
         (view_at pyarrow_model (table_a [1; 2]%Z : Table pyarrow_model)
            (Z.of_nat i)) = Ok r ∧
       dict_to_map r = dict_to_map d).
Proof.
  apply (C6_iter_rows_round_trip ["a"%string] [row_a 1; row_a 2]
           (table_a [1; 2]%Z)
           {| _columns := [("a"%string, [VInt 1; VInt 2])];
              _tables := []; _num_rows := 2 |}).
  - exact (one_schema_row_a [1; 2]%Z).
  - reflexivity.
Defined.

End Witnesses.

(** ** Further properties of the builders, for every table library *)

Section BuilderProperties.
Context (L : ArrowLib).

(** The object that a method call leaves behind, returned or raised. *)
Definition state_of {S A} (o : outcome S A) : S :=
  match o with Return _ self => self | Raise _ self => self end.

(** The items given to [add], in call order. *)
Definition adds (calls : list (call L)) : list (item L) :=
  calls ≫= λ c, match c with Add x => [x] | AddBlock _ => [] end.

Lemma ArrowBlockBuilder_call_added (c : call L) (b b' : ArrowBlockBuilder L) :
  ArrowBlockBuilder_call c b = Return tt b' →
  length (added L [c]) = length (adds [c]).
Proof.
  destruct c as [x|blk]; [|done]. simpl.
  unfold ArrowBlockBuilder_add, py_bind, py_call, py_ret, py_update, py_raise.
  destruct x as [d|r|v]; simpl; [done| |done].
  unfold added. simpl. by destruct (as_pydict L r).
Qed.

Lemma adds_cons c calls : adds (c :: calls) = adds [c] ++ adds calls.
Proof. unfold adds. simpl. by rewrite app_nil_r. Qed.

Lemma ArrowBlockBuilder_run_added (calls : list (call L))
    (b b' : ArrowBlockBuilder L) :
  run ArrowBlockBuilder_call calls b = Return tt b' →
  length (added L calls) = length (adds calls).
Proof.
  revert b. induction calls as [|c calls IH]; intros b; [done|].
  cbn [run]. unfold py_bind at 1.
  destruct (ArrowBlockBuilder_call c b) as [[] b1|e b1] eqn:Hc; [|done].
  intros Hrun. rewrite added_cons, adds_cons, !length_app.
  by rewrite (ArrowBlockBuilder_call_added _ _ _ Hc), (IH _ Hrun).
Qed.

(** After any sequence of calls that all returned, [num_rows()] is the
    number of [add] calls plus the row counts of the merged tables. *)
Theorem num_rows_counts_contributions (calls : list (call L))
    (b' : ArrowBlockBuilder L) :
  run ArrowBlockBuilder_call calls (ArrowBlockBuilder___init__ L) =
    Return tt b' →
  ArrowBlockBuilder_num_rows L b' =
    Return (Z.of_nat (length (adds calls)) + total_rows L (merged L calls))%Z b'.
Proof.
  intros Hrun. pose proof (ArrowBlockBuilder_run_added _ _ _ Hrun) as Hlen.
  apply ArrowBlockBuilder_run_state in Hrun as (_ & _ & Hn).
  unfold ArrowBlockBuilder_num_rows, py_read. rewrite Hn, Hlen. simpl.
  done.
Qed.

(** A call that raises leaves the pending columns, the merged tables and
    the row count as they were. *)
Lemma ArrowBlockBuilder_call_Raise (c : call L) (b b' : ArrowBlockBuilder L) e :
  ArrowBlockBuilder_call c b = Raise e b' → b' = b.
Proof.
  destruct c as [x|blk]; simpl.
  - unfold ArrowBlockBuilder_add, py_bind, py_call, py_ret, py_update, py_raise.
    destruct x as [d|r|v]; simpl; [done| |by intros [= _ <-]].
    destruct (as_pydict L r) as [d|e']; simpl; [done|by intros [= _ <-]].
  - unfold ArrowBlockBuilder_add_block, py_update, py_raise.
    destruct blk as [t|rows]; simpl; [done|by intros [= _ <-]].
Qed.

(** In a sequence of calls, the call that raises leaves the builder as the
    calls before it left it; the calls after it are not made. *)
Theorem failed_call_leaves_builder_unchanged (calls : list (call L))
    (b b' : ArrowBlockBuilder L) (e : exn) :
  run ArrowBlockBuilder_call calls b = Raise e b' →
  ∃ before c after,
    calls = before ++ c :: after ∧
    run ArrowBlockBuilder_call before b = Return tt b' ∧
    ArrowBlockBuilder_call c b' = Raise e b'.
Proof.
  revert b. induction calls as [|c calls IH]; intros b; [done|].
  cbn [run]. unfold py_bind at 1.
  destruct (ArrowBlockBuilder_call c b) as [[] b1|e1 b1] eqn:Hc.
  - intros (before & c' & after & -> & Hbefore & Hc')%IH.
    exists (c :: before), c', after. split; [done|]. split; [|done].
    cbn [run]. unfold py_bind at 1. by rewrite Hc.
  - intros [= -> ->]. pose proof (ArrowBlockBuilder_call_Raise _ _ _ _ Hc) as ->.
    by exists [], c, calls.
Qed.

(** [build] does not touch the builder, whether it returns or raises, so
    building again gives the same outcome. *)
Theorem build_leaves_builder_unchanged (b : ArrowBlockBuilder L) :
  state_of (ArrowBlockBuilder_build L b) = b ∧
  ArrowBlockBuilder_build L (state_of (ArrowBlockBuilder_build L b)) =
    ArrowBlockBuilder_build L b.
Proof.
  assert (state_of (ArrowBlockBuilder_build L b) = b) as H.
  { destruct b as [cols ts n].
    unfold ArrowBlockBuilder_build, py_bind, py_read, py_call, py_ret. simpl.
    destruct cols as [|c cols]; simpl.
    - destruct ts as [|t [|t' ts]]; simpl; [|done|].
      + by destruct (Table_from_pydict L []).
      + by destruct (concat_tables L _).
    - destruct (Table_from_pydict L (c :: cols)) as [t0|e]; simpl; [|done].
      destruct ts as [|t ts]; simpl; [done|].
      by destruct (concat_tables L _). }
  split; [done|]. by rewrite H.
Qed.

(** [add] of a row view is [add] of its mapping form. *)
Lemma add_row_view (r : ArrowRow L) (d : dict value) (b : ArrowBlockBuilder L) :
  as_pydict L r = Ok d →
  ArrowBlockBuilder_add L (IArrowRow r) b = ArrowBlockBuilder_add L (IDict d) b.
Proof.
  intros Hr.
  unfold ArrowBlockBuilder_add, py_bind, py_call, py_ret. by rewrite Hr.
Qed.

Lemma filter_ext_elem_of {A} (P Q : A → Prop)
    `{∀ x, Decision (P x)} `{∀ x, Decision (Q x)} (l : list A) :
  (∀ x, x ∈ l → (P x ↔ Q x)) → filter P l = filter Q l.
Proof.
  induction l as [|x l IH]; intros HPQ; [done|].
  assert (filter P l = filter Q l) as Hl.
  { apply IH. intros y Hy. apply HPQ, elem_of_cons; auto. }
  pose proof (HPQ x ltac:(apply elem_of_cons; auto)) as Hx.
  destruct (decide (P x)) as [HP|HP].
  - rewrite !filter_cons_True by tauto. by rewrite Hl.
  - rewrite !filter_cons_False by tauto. done.
Qed.

(** The columns keep their places when a mapping is added; the keys seen
    for the first time get their columns after them, in the order of the
    mapping. *)
Theorem columns_in_first_seen_order (d : dict value) (cols : dict (list value)) :
  NoDup d.*1 →
  (append_items d cols).*1 = cols.*1 ++ filter (λ k, k ∉ cols.*1) d.*1.
Proof.
  unfold append_items. revert cols.
  induction d as [|[k v] d IH]; intros cols Hd; csimpl.
  - by rewrite app_nil_r.
  - apply NoDup_cons in Hd as [Hk Hd]. rewrite IH by done.
    unfold defaultdict_append. rewrite dict_set_keys.
    destruct (decide (k ∈ cols.*1)) as [Hin|Hout].
    + by rewrite filter_cons_False by (by intros ?).
    + rewrite filter_cons_True by done. rewrite <- app_assoc. simpl.
      do 2 f_equal. apply filter_ext_elem_of. intros k' Hk'.
      rewrite elem_of_app, list_elem_of_singleton. split.
      * intros Hn ?. apply Hn. by left.
      * intros Hn [?| ->]; [done|]. by apply Hk.
Qed.

(** *** The delegating builder as a state machine *)

(** The representation that a delegating builder has settled on. *)
Inductive representation : Type := Undecided | Columnar | Simple.

Definition representation_of (self : DelegatingArrowBlockBuilder L)
  : representation :=
  match _builder L self with
  | None => Undecided
  | Some (BArrow _) => Columnar
  | Some (BSimple _) => Simple
  end.

Lemma on_builder_representation {A} (arrow : Py (ArrowBlockBuilder L) A)
    (simple : Py (SimpleBlockBuilder L) A) (self : DelegatingArrowBlockBuilder L) :
  representation_of (state_of (on_builder L arrow simple self)) =
  representation_of self.
Proof.
  destruct self as [[[b|b]|]]; unfold on_builder, on_arrow, on_simple; simpl.
  - by destruct (arrow b).
  - by destruct (simple b).
  - done.
Qed.

Lemma DelegatingArrowBlockBuilder_call_decided (c : call L)
    (self : DelegatingArrowBlockBuilder L) :
  representation_of self ≠ Undecided →
  representation_of (state_of (DelegatingArrowBlockBuilder_call c self)) =
  representation_of self.
Proof.
  destruct self as [[b|]]; [intros _|done].
  destruct c as [x|blk]; apply (on_builder_representation _ _ {| _builder := Some b |}).
Qed.

(** Once a delegating builder holds an Arrow builder or a simple builder,
    no sequence of [add] and [add_block] calls, returning or raising, and
    no [build] makes it hold the other kind or none. *)
Theorem representation_is_final (calls : list (call L))
    (self : DelegatingArrowBlockBuilder L) :
  representation_of self ≠ Undecided →
  representation_of (state_of (run DelegatingArrowBlockBuilder_call calls self)) =
    representation_of self ∧
  representation_of (state_of (DelegatingArrowBlockBuilder_build L self)) =
    representation_of self.
Proof.
  intros Hself. split.
  - revert self Hself. induction calls as [|c calls IH]; intros self Hself; [done|].
    cbn [run]. unfold py_bind at 1.
    pose proof (DelegatingArrowBlockBuilder_call_decided c self Hself) as Hc.
    destruct (DelegatingArrowBlockBuilder_call c self) as [[] self'|e self'];
      simpl in Hc; [|done].
    rewrite IH by congruence. done.
  - destruct self as [[b|]]; [|done].
    apply (on_builder_representation _ _ {| _builder := Some b |}).
Qed.

(** The outcome of an Arrow builder's method, seen through the delegating
    builder that holds it. *)
Definition through_delegate {A} (o : outcome (ArrowBlockBuilder L) A)
  : outcome (DelegatingArrowBlockBuilder L) A :=
  match o with
  | Return a b => Return a {| _builder := Some (BArrow b) |}
  | Raise e b => Raise e {| _builder := Some (BArrow b) |}
  end.

Lemma run_through_delegate (calls : list (call L)) (b : ArrowBlockBuilder L) :
  run DelegatingArrowBlockBuilder_call calls {| _builder := Some (BArrow b) |} =
  through_delegate (run ArrowBlockBuilder_call calls b).
Proof.
  revert b. induction calls as [|c calls IH]; intros b; [done|].
  cbn [run]. unfold py_bind at 1 2.
  assert (DelegatingArrowBlockBuilder_call c {| _builder := Some (BArrow b) |} =
          through_delegate (ArrowBlockBuilder_call c b)) as ->.
  { destruct c; simpl;
      unfold DelegatingArrowBlockBuilder_add, DelegatingArrowBlockBuilder_add_block,
        py_bind, py_read, py_ret, on_builder, on_arrow; simpl;
      by match goal with |- context [match ?o with _ => _ end] => destruct o end. }
  destruct (ArrowBlockBuilder_call c b) as [[] b1|e b1]; simpl; [apply IH|done].
Qed.

Lemma build_through_delegate (b : ArrowBlockBuilder L) :
  DelegatingArrowBlockBuilder_build L {| _builder := Some (BArrow b) |} =
  through_delegate
    (py_bind (ArrowBlockBuilder_build L) (λ t, py_ret (ArrowBlock t)) b).
Proof.
  unfold DelegatingArrowBlockBuilder_build, py_bind, py_read, py_ret,
    on_builder, on_arrow. simpl.
  by destruct (ArrowBlockBuilder_build L b).
Qed.

Lemma run_after_trial (d : dict value) (calls : list (call L))
    (t : Table L) (check : ArrowBlockBuilder L) :
  py_bind (ArrowBlockBuilder_add L (IDict d)) (λ _, ArrowBlockBuilder_build L)
          (ArrowBlockBuilder___init__ L) = Return t check →
  run DelegatingArrowBlockBuilder_call (Add (IDict d) :: calls)
      (DelegatingArrowBlockBuilder___init__ L) =
    through_delegate
      (run ArrowBlockBuilder_call (Add (IDict d) :: calls)
           (ArrowBlockBuilder___init__ L)).
Proof.
  intros Htrial.
  assert (DelegatingArrowBlockBuilder_add L (IDict d)
            (DelegatingArrowBlockBuilder___init__ L) =
          through_delegate (ArrowBlockBuilder_add L (IDict d)
                              (ArrowBlockBuilder___init__ L))) as Hfirst.
  { unfold py_bind in Htrial.
    destruct (ArrowBlockBuilder_add L (IDict d) (ArrowBlockBuilder___init__ L))
      as [[] c1|e c1] eqn:Hadd; [|done].
    unfold DelegatingArrowBlockBuilder_add, py_bind at 1. simpl.
    unfold py_bind at 1, py_try, py_bind at 1, py_on at 1.
    rewrite Hadd. simpl. unfold py_bind at 1, py_on. rewrite Htrial. simpl.
    unfold on_builder, on_arrow. cbn [_builder]. by rewrite Hadd. }
  cbn [run]. unfold py_bind at 1 2.
  change (DelegatingArrowBlockBuilder_call (Add (IDict d))) with
    (DelegatingArrowBlockBuilder_add L (IDict d)).
  change (ArrowBlockBuilder_call (Add (IDict d))) with
    (ArrowBlockBuilder_add L (IDict d)).
  rewrite Hfirst.
  destruct (ArrowBlockBuilder_add L (IDict d) (ArrowBlockBuilder___init__ L))
    as [[] b1|e b1]; simpl; [apply run_through_delegate|done].
Qed.

(** When the trial on the first mapping succeeds, the delegating builder is
    an Arrow builder from then on: every sequence of calls that starts with
    that [add], and the [build] after it, has the outcome that the same
    calls have on a fresh [ArrowBlockBuilder]. *)
Theorem delegating_is_arrow_after_trial (d : dict value) (calls : list (call L))
    (t : Table L) (check : ArrowBlockBuilder L) :
  py_bind (ArrowBlockBuilder_add L (IDict d)) (λ _, ArrowBlockBuilder_build L)
          (ArrowBlockBuilder___init__ L) = Return t check →
  run DelegatingArrowBlockBuilder_call (Add (IDict d) :: calls)
      (DelegatingArrowBlockBuilder___init__ L) =
    through_delegate
      (run ArrowBlockBuilder_call (Add (IDict d) :: calls)
           (ArrowBlockBuilder___init__ L)) ∧
  py_bind (run DelegatingArrowBlockBuilder_call (Add (IDict d) :: calls))
          (λ _, DelegatingArrowBlockBuilder_build L)
          (DelegatingArrowBlockBuilder___init__ L) =
    through_delegate
      (py_bind (run ArrowBlockBuilder_call (Add (IDict d) :: calls))
               (λ _, py_bind (ArrowBlockBuilder_build L)
                             (λ t, py_ret (ArrowBlock t)))
               (ArrowBlockBuilder___init__ L)).
Proof.
  intros Htrial. split; [by eapply run_after_trial|].
  unfold py_bind at 1 2. rewrite (run_after_trial d calls t check Htrial).
  destruct (run ArrowBlockBuilder_call _ _) as [[] b1|e b1]; simpl; [|done].
  apply build_through_delegate.
Qed.

(** An error of the trial that is neither a [TypeError] nor an
    [ArrowInvalid] reaches the caller of [add], and the builder stays
    undecided. *)
Theorem trial_error_of_other_class_propagates
    (d : dict value) (check check' : ArrowBlockBuilder L) (e : exn) :
  ArrowBlockBuilder_add L (IDict d) (ArrowBlockBuilder___init__ L) =
    Return tt check →
  ArrowBlockBuilder_build L check = Raise e check' →
  isinstance e TypeError || isinstance e ArrowInvalid = false →
  DelegatingArrowBlockBuilder_add L (IDict d)
      (DelegatingArrowBlockBuilder___init__ L) =
    Raise e (DelegatingArrowBlockBuilder___init__ L).
Proof.
  intros Hadd Hbuild He.
  unfold DelegatingArrowBlockBuilder_add, py_bind at 1. simpl.
  unfold py_bind at 1, py_try, py_bind at 1, py_on at 1.
  rewrite Hadd. simpl. unfold py_bind at 1, py_on. rewrite Hbuild.
  simpl. rewrite orb_false_r, He. reflexivity.
Qed.

(** [build] on an untouched delegating builder settles it on the Arrow
    builder, whatever the library answers; an item that is not a mapping is
    refused from then on. *)
Theorem build_commits_to_columnar (v : value) :
  state_of (DelegatingArrowBlockBuilder_build L
              (DelegatingArrowBlockBuilder___init__ L)) =
    {| _builder := Some (BArrow (ArrowBlockBuilder___init__ L)) |} ∧
  DelegatingArrowBlockBuilder_add L (IValue v)
    {| _builder := Some (BArrow (ArrowBlockBuilder___init__ L)) |} =
    Raise ValueError
      {| _builder := Some (BArrow (ArrowBlockBuilder___init__ L)) |}.
Proof.
  split; [|reflexivity].
  unfold DelegatingArrowBlockBuilder_build, py_bind, py_read, set_builder,
    py_update, on_builder, on_arrow, ArrowBlockBuilder_build, py_call, py_ret.
  simpl. by destruct (Table_from_pydict L []).
Qed.

End BuilderProperties.

(** ** Further properties of row views and of the row iterator *)

Section RowViewProperties.
Context (L : ArrowLib) {objects : Objects}.

(** [keys()], [values()] and [items()] of a row view: those of its mapping
    form. *)
Definition ArrowRow_keys (self : ArrowRow L) : result (list string) :=
  match as_pydict L self with Ok d => Ok d.*1 | Err e => Err e end.

Definition ArrowRow_values (self : ArrowRow L) : result (list value) :=
  match as_pydict L self with Ok d => Ok d.*2 | Err e => Err e end.

Definition ArrowRow_items (self : ArrowRow L) : result (dict value) :=
  as_pydict L self.

Lemma first_of_each_Err (items : dict (list value)) (acc : dict value) e :
  first_of_each items acc = Err e →
  e = IndexError ∧ Exists (λ kv, kv.2 = []) items.
Proof.
  revert acc. induction items as [|[k vs] items IH]; intros acc; simpl; [done|].
  destruct vs as [|x vs].
  - intros [= <-]. split; [done|]. by left.
  - intros [-> Hex]%IH. split; [done|]. by right.
Qed.

Lemma first_of_each_firsts (items : dict (list value)) (acc : dict value) :
  NoDup (acc.*1 ++ items.*1) →
  Forall (λ kv, kv.2 ≠ []) items →
  first_of_each items acc =
  Ok (acc ++ ((λ kv, (kv.1, default VNone (head kv.2))) <$> items)).
Proof.
  revert acc. induction items as [|[k vs] items IH]; intros acc Hnd Hne; csimpl.
  - by rewrite app_nil_r.
  - apply Forall_cons in Hne as [Hvs Hne]. simpl in Hvs.
    destruct vs as [|x vs]; [done|]. simpl.
    assert (k ∉ acc.*1) as Hk.
    { apply NoDup_app in Hnd as (_ & Hd & _). intros Hin.
      apply (Hd _ Hin). apply elem_of_cons; auto. }
    rewrite dict_set_fresh by done.
    rewrite IH; [|by rewrite fmap_app, <- app_assoc|done].
    by rewrite <- app_assoc.
Qed.

(** The mapping form of a row view exists exactly when no column of its
    slice is empty; the only error is the [IndexError] of [v[0]].  It then
    has one item per column, in the order of the columns, holding the
    first value of the column. *)
Theorem as_pydict_first_values (r : ArrowRow L) :
  NoDup (Table_to_pydict L (_row L r)).*1 →
  (Forall (λ kv, kv.2 ≠ []) (Table_to_pydict L (_row L r)) →
   as_pydict L r =
   Ok ((λ kv, (kv.1, default VNone (head kv.2))) <$> Table_to_pydict L (_row L r)) ∧
   ArrowRow_keys r = Ok (Table_to_pydict L (_row L r)).*1) ∧
  (Exists (λ kv, kv.2 = []) (Table_to_pydict L (_row L r)) →
   as_pydict L r = Err IndexError) ∧
  (∀ e, as_pydict L r = Err e → e = IndexError).
Proof.
  intros Hnd. split_and!.
  - intros Hne.
    assert (as_pydict L r =
            Ok ((λ kv, (kv.1, default VNone (head kv.2)))
                  <$> Table_to_pydict L (_row L r))) as Hd.
    { unfold as_pydict. by rewrite first_of_each_firsts. }
    split; [done|]. unfold ArrowRow_keys. rewrite Hd. f_equal.
    rewrite <- list_fmap_compose. by apply list_fmap_ext.
  - intros Hex. destruct (as_pydict L r) as [d|e] eqn:Hd.
    + exfalso. unfold as_pydict in Hd. revert Hd Hex.
      generalize (@nil (string * value)).
      induction (Table_to_pydict L (_row L r)) as [|[k vs] items IH];
        intros acc Hd Hex; [by apply Exists_nil in Hex|].
      simpl in Hd. destruct vs as [|x vs]; [done|].
      apply Exists_cons in Hex as [Hex|Hex]; [done|].
      apply NoDup_cons in Hnd as [_ Hnd]. by eapply IH.
    + by apply first_of_each_Err in Hd as [-> _].
  - intros e He. by apply first_of_each_Err in He as [-> _].
Qed.

Lemma dict_equal_sym (d1 d2 : dict value) :
  NoDup d1.*1 → NoDup d2.*1 → dict_equal d1 d2 = dict_equal d2 d1.
Proof.
  intros H1 H2.
  pose proof (dict_equal_spec d1 d2 H1 H2) as H12.
  pose proof (dict_equal_spec d2 d1 H2 H1) as H21.
  destruct (dict_equal d1 d2), (dict_equal d2 d1); try done.
  - symmetry. apply H21. symmetry. by apply H12.
  - apply H12. symmetry. by apply H21.
Qed.

(** [==] on two row views does not depend on which one is on the left, also
    when one of them has no mapping form. *)
Theorem row_view_eq_symmetric (r1 r2 : ArrowRow L) :
  ArrowRow___eq__ L r1 (IArrowRow r2) = ArrowRow___eq__ L r2 (IArrowRow r1).
Proof.
  unfold ArrowRow___eq__.
  destruct (as_pydict L r1) as [d1|e1] eqn:H1,
           (as_pydict L r2) as [d2|e2] eqn:H2; simpl.
  - f_equal. apply dict_equal_sym; eauto using as_pydict_NoDup.
  - done.
  - done.
  - apply first_of_each_Err in H1 as [-> _].
    by apply first_of_each_Err in H2 as [-> _].
Qed.


(** Iterating a block yields the views of rows [0] to [num_rows - 1] and
    stops; from then on the iterator is exhausted: [__next__] raises
    [StopIteration] at every later call, so a second pass over the same
    iterator yields nothing. *)
Theorem iterator_is_single_pass (t : Table L) (it' : Iter) :
  list_of_iter L {| _table := t |} (iter_rows L {| _table := t |}) =
    Return (view_at L t <$> seqZ 0 (Table_num_rows L t))
           {| _cur := Z.max 0 (Table_num_rows L t) |} ∧
  ((Z.max 0 (Table_num_rows L t) ≤ _cur it')%Z →
   Iter___next__ L {| _table := t |} it' =
     Raise StopIteration {| _cur := _cur it' + 1 |} ∧
   list_of_iter L {| _table := t |} it' =
     Return [] {| _cur := _cur it' + 1 |}).
Proof.
  split; [apply list_of_iter_rows|]. intros Hcur.
  assert (Iter___next__ L {| _table := t |} it' =
          Raise StopIteration {| _cur := _cur it' + 1 |}) as Hnext.
  { unfold Iter___next__, py_bind, py_update, py_read, py_ret, py_raise.
    simpl. case_bool_decide; [lia|done]. }
  split; [done|]. by rewrite list_of_iter_step, Hnext.
Qed.

End RowViewProperties.

(** ** [ArrowBlockAccessor.slice] *)

(** What the copying branch of [slice] asks of the library: the columns of
    a table, their conversion to pandas, the construction of a table from
    arrays under a schema, and the schema of a table. *)
Record CopyOps (L : ArrowLib) : Type := {
  Column : Type;
  Series : Type;
  Schema : Type;
  Table_itercolumns : Table L → list Column;
  Column_to_pandas : Column → Series;
  Table_from_arrays : list Series → Schema → result (Table L);
  Table_schema : Table L → Schema;
}.
Arguments Column {L} _.
Arguments Series {L} _.
Arguments Schema {L} _.
Arguments Table_itercolumns {L} _ _.
Arguments Column_to_pandas {L} _ _.
Arguments Table_from_arrays {L} _ _ _.
Arguments Table_schema {L} _ _.

Definition ArrowBlockAccessor_slice {L : ArrowLib} (ops : CopyOps L)
    (self : ArrowBlockAccessor L) (start end_ : Z) (copy : bool)
  : result (Table L) :=
  let view := Table_slice L (_table L self) start (end_ - start) in
  if copy then
    Table_from_arrays ops
      (Column_to_pandas ops <$> Table_itercolumns ops view)
      (Table_schema ops (_table L self))
  else Ok view.

Section BlockProperties.
Import PyArrow.
Implicit Types (t : table) (c : column).

Lemma slice_same_length t (offset len : Z) :
  same_length t = true → same_length (slice t offset len) = true.
Proof.
  intros Ht%same_length_rect. apply same_length_rect.
  unfold rect, slice in *. rewrite Forall_fmap. simpl.
  destruct t as [|c0 t]; [constructor|].
  eapply Forall_impl; [exact Ht|]. intros c Hc. simpl in *.
  apply Forall_cons in Ht as [Hc0 _].
  rewrite !length_take, !length_drop. rewrite Nat2Z.id. lia.
Qed.

Lemma slice_num_rows t (offset len : Z) :
  num_rows (slice t offset len) =
  Z.of_nat (Z.to_nat len `min` (Z.to_nat (num_rows t) - Z.to_nat offset)).
Proof.
  destruct t as [|c t]; simpl; [lia|].
  rewrite length_take, length_drop. lia.
Qed.

Lemma row_dict_slice t (offset len : Z) (i : nat) :
  i < Z.to_nat len →
  row_dict (slice t offset len) i = row_dict t (Z.to_nat offset + i).
Proof.
  intros Hi. unfold row_dict. rewrite to_pydict_slice.
  rewrite <- list_fmap_compose. apply list_fmap_ext. intros j [k vs] _. simpl.
  by rewrite lookup_take_lt, lookup_drop.
Qed.

(** [slice(start, end, copy=False)] is the library's slice of length
    [end - start] at [start]; it holds the rows [start] to [end - 1] of
    the block, as far as the block has them, in order. *)
Theorem slice_without_copy_rows (ops : CopyOps pyarrow_model) t (start end_ : Z) :
  same_length t = true →
  (0 ≤ start ≤ end_)%Z →
  ∃ view : table,
    ArrowBlockAccessor_slice ops {| _table := t : Table pyarrow_model |}
      start end_ false = Ok (view : Table pyarrow_model) ∧
    rows_of pyarrow_model view =
      take (Z.to_nat (end_ - start))
           (drop (Z.to_nat start) (rows_of pyarrow_model t)) ∧
    num_rows view =
      (Z.max 0 (Z.min end_ (num_rows t) - start))%Z.
Proof.
  intros Ht Hse. exists (slice t start (end_ - start)).
  split; [done|]. split.
  - rewrite !rows_of_model by (done || by apply slice_same_length).
    rewrite slice_num_rows, Nat2Z.id.
    rewrite <- fmap_drop, <- fmap_take, drop_seq, take_seq. simpl.
    set (m := _ `min` _).
    replace (seq (Z.to_nat start) m)
      with (Nat.add (Z.to_nat start) <$> seq 0 m)
      by (rewrite fmap_add_seq; f_equal; lia).
    rewrite <- list_fmap_compose. apply list_fmap_ext.
    intros i j Hj. apply lookup_seq in Hj as [-> Hlt]. simpl. f_equal.
    apply row_dict_slice. lia.
  - rewrite slice_num_rows. pose proof (num_rows_nonneg t). lia.
Qed.

(** The keys of a row view over a table whose column names are distinct
    are the column names, in schema order; the values are the cells of the
    row in the same order. *)
Theorem row_view_keys_in_column_order t (i : nat) :
  same_length t = true →
  NoDup (col_name <$> t) →
  (Z.of_nat i < num_rows t)%Z →
  ArrowRow_keys pyarrow_model (view_at pyarrow_model t (Z.of_nat i)) =
    Ok (col_name <$> t) ∧
  ArrowRow_values pyarrow_model (view_at pyarrow_model t (Z.of_nat i)) =
    Ok ((λ c, default VNone (col_data c !! i)) <$> t).
Proof.
  intros Ht Hnd Hi. unfold ArrowRow_keys, ArrowRow_values.
  rewrite view_row by done. unfold row_dict.
  rewrite to_pydict_NoDup_names by done.
  rewrite <- !list_fmap_compose. split; f_equal; by apply list_fmap_ext.
Qed.

Lemma to_pydict_nil_inv t : to_pydict t = [] → t = [].
Proof.
  destruct t as [|c t]; [done|]. unfold to_pydict. simpl.
  assert (∀ acc : dict (list value), acc ≠ [] →
            foldl (λ d c, dict_set d (col_name c) (col_data c)) acc t ≠ [])
    as Hgen.
  { induction t as [|c' t IH]; intros acc Hne; simpl; [done|].
    apply IH. destruct acc as [|[k v] acc]; [done|]. simpl. by case_decide. }
  intros H. by destruct (Hgen [(col_name c, col_data c)]).
Qed.

Lemma added_views t (n : nat) :
  same_length t = true → (Z.of_nat n ≤ num_rows t)%Z →
  added pyarrow_model
    ((λ i, Add (IArrowRow (view_at pyarrow_model t i))) <$> seqZ 0 (Z.of_nat n)) =
  row_dict t <$> seq 0 n ∧
  merged pyarrow_model
    ((λ i, Add (IArrowRow (view_at pyarrow_model t i))) <$> seqZ 0 (Z.of_nat n)) =
  [].
Proof.
  intros Ht. induction n as [|n IH]; intros Hn; [done|].
  destruct IH as [IHa IHm]; [lia|].
  rewrite seqZ_S, seq_S, !fmap_app.
  unfold added, merged in *. rewrite !bind_app, IHa, IHm. csimpl.
  rewrite Z.add_0_l, view_row by (done || lia). done.
Qed.

(** Copying a block row by row, by adding each row view of the block to a
    fresh builder, builds a block with the same rows in the same order. *)
Theorem copy_by_row_views t T b' :
  same_length t = true →
  py_bind
    (run ArrowBlockBuilder_call
       ((λ i, Add (IArrowRow (view_at pyarrow_model t i)))
          <$> seqZ 0 (num_rows t)))
    (λ _, ArrowBlockBuilder_build pyarrow_model)
    (ArrowBlockBuilder___init__ pyarrow_model) = Return T b' →
  Forall2 same_row (rows_of pyarrow_model T) (rows_of pyarrow_model t) ∧
  num_rows T = num_rows t.
Proof.
  intros Ht Hbuilt. pose proof (num_rows_nonneg t) as Hn.
  destruct (added_views t (Z.to_nat (num_rows t)) Ht ltac:(lia)) as [Ha Hm].
  rewrite Z2Nat.id in Ha, Hm by done.
  apply built_rows in Hbuilt as (_ & ts0 & Hts0 & Hrows & Hcount);
    [|by rewrite Hm].
  rewrite Ha in Hts0. rewrite Hm, app_nil_r in Hrows, Hcount.
  assert (one_schema (to_pydict t).*1 (row_dict t <$> seq 0 (Z.to_nat (num_rows t))))
    as Hschema.
  { apply Forall_fmap, Forall_forall. intros i _. simpl.
    assert ((row_dict t i).*1 = (to_pydict t).*1) as ->.
    { unfold row_dict. rewrite <- list_fmap_compose. by apply list_fmap_ext. }
    split; [apply to_pydict_NoDup|done]. }
  rewrite (rows_of_model t) by done.
  destruct Hts0 as [[Hp ->]|(t0 & Hp & Hfrom & ->)].
  - simpl in Hcount. rewrite Hrows. csimpl.
    destruct (decide ((to_pydict t).*1 = [])) as [Hk|Hk].
    + apply fmap_nil_inv, to_pydict_nil_inv in Hk. subst t. by split.
    + apply (pending_nil_inv _ _ Hschema Hk) in Hp.
      apply fmap_nil_inv in Hp. rewrite Hp. split; [constructor|].
      apply (f_equal length) in Hp. rewrite length_seq in Hp. simpl in Hp. lia.
  - destruct (materialized_rows _ _ t0 Hschema Hp Hfrom) as (_ & Hn0 & Hr0).
    csimpl in Hrows. rewrite app_nil_r in Hrows. rewrite Hrows.
    simpl in Hcount. rewrite Z.add_0_r in Hcount.
    rewrite <- list_fmap_compose in Hr0. split; [done|].
    rewrite Hcount, Hn0, length_fmap, length_seq. lia.
Qed.

(** For mappings over one non-empty set of keys whose first one passes the
    trial, a delegating builder builds a columnar block with one row per
    item, the rows being the items in call order. *)
Theorem delegating_builds_columnar (keys : list string) (d : dict value)
    (ds : list (dict value)) (t0 : table) (check : ArrowBlockBuilder pyarrow_model)
    (blk : block pyarrow_model) (st : DelegatingArrowBlockBuilder pyarrow_model) :
  one_schema keys (d :: ds) →
  keys ≠ [] →
  py_bind (ArrowBlockBuilder_add pyarrow_model (IDict d))
          (λ _, ArrowBlockBuilder_build pyarrow_model)
          (ArrowBlockBuilder___init__ pyarrow_model) =
    Return (t0 : Table pyarrow_model) check →
  py_bind (run DelegatingArrowBlockBuilder_call (Add ∘ IDict <$> d :: ds))
          (λ _, DelegatingArrowBlockBuilder_build pyarrow_model)
          (DelegatingArrowBlockBuilder___init__ pyarrow_model) =
    Return blk st →
  ∃ T : table,
    blk = ArrowBlock (T : Table pyarrow_model) ∧
    representation_of pyarrow_model st = Columnar ∧
    num_rows T = Z.of_nat (length (d :: ds)) ∧
    Forall2 same_row (rows_of pyarrow_model T) (Ok <$> d :: ds).
Proof.
  intros Hschema Hkeys Htrial Hbuilt.
  rewrite fmap_cons in Hbuilt.
  change ((Add ∘ IDict) d) with (Add (L := pyarrow_model) (IDict d)) in Hbuilt.
  unfold py_bind at 1 in Hbuilt.
  rewrite (run_after_trial pyarrow_model d
             (Add ∘ IDict <$> ds) t0 check Htrial) in Hbuilt.
  destruct (run ArrowBlockBuilder_call _ _) as [[] b1|e b1] eqn:Hrun; [|done].
  simpl in Hbuilt. rewrite build_through_delegate in Hbuilt.
  unfold py_bind at 1 in Hbuilt.
  destruct (ArrowBlockBuilder_build pyarrow_model b1) as [T b2|e b2] eqn:Hb;
    [|done].
  simpl in Hbuilt. injection Hbuilt as <- <-.
  exists T. split; [done|]. split; [done|].
  assert (py_bind (run ArrowBlockBuilder_call (Add ∘ IDict <$> d :: ds))
            (λ _, ArrowBlockBuilder_build pyarrow_model)
            (ArrowBlockBuilder___init__ pyarrow_model) = Return T b2) as Hall.
  { unfold py_bind at 1. rewrite fmap_cons.
    change ((Add ∘ IDict) d) with (Add (L := pyarrow_model) (IDict d)).
    by rewrite Hrun. }
  apply built_rows in Hall as (_ & ts0 & Hts0 & Hrows & Hcount);
    [|by rewrite merged_dicts].
  rewrite added_dicts in Hts0. rewrite merged_dicts, app_nil_r in Hrows, Hcount.
  destruct Hts0 as [[Hp ->]|(t1 & Hp & Hfrom & ->)].
  - by apply (pending_nil_inv keys) in Hp.
  - destruct (materialized_rows keys _ t1 Hschema Hp Hfrom) as (_ & Hn0 & Hr0).
    csimpl in Hrows. rewrite app_nil_r in Hrows. rewrite Hrows.
    simpl in Hcount. rewrite Z.add_0_r in Hcount. by rewrite Hcount.
Qed.

End BlockProperties.

(** ** The further properties at concrete inputs *)

Section MoreWitnesses.
Import PyArrow.

(** The builder after [block_then_row]. *)
Definition builder_after_block_then_row : ArrowBlockBuilder pyarrow_model :=
  {| _columns := [("a"%string, [VInt 2])];
     _tables := [table_a [1%Z] : Table pyarrow_model];
     _num_rows := 2 |}.

Lemma num_rows_counts_contributions_witness :
  ArrowBlockBuilder_num_rows pyarrow_model builder_after_block_then_row =
  Return (Z.of_nat (length (adds pyarrow_model block_then_row)) +
          total_rows pyarrow_model (merged pyarrow_model block_then_row))%Z
         builder_after_block_then_row.
Proof.
  apply (num_rows_counts_contributions pyarrow_model block_then_row).
  reflexivity.
Defined.

(** A mapping, then a string, then a mapping. *)
Definition calls_with_bad_item : list (call pyarrow_model) :=
  [Add (IDict (row_a 1)); Add (IValue (VStr "x")); Add (IDict (row_a 2))].

Definition builder_after_first_row : ArrowBlockBuilder pyarrow_model :=
  {| _columns := [("a"%string, [VInt 1])]; _tables := []; _num_rows := 1 |}.

Lemma failed_call_leaves_builder_unchanged_witness :
  ∃ before c after,
    calls_with_bad_item = before ++ c :: after ∧
    run ArrowBlockBuilder_call before (ArrowBlockBuilder___init__ pyarrow_model) =
      Return tt builder_after_first_row ∧
    ArrowBlockBuilder_call c builder_after_first_row =
      Raise ValueError builder_after_first_row.
Proof.
  apply (failed_call_leaves_builder_unchanged pyarrow_model calls_with_bad_item
           (ArrowBlockBuilder___init__ pyarrow_model)
           builder_after_first_row ValueError).
  reflexivity.
Defined.

Lemma columns_in_first_seen_order_witness :
  (append_items [("b"%string, VInt 2); ("a"%string, VInt 1)]
                [("a"%string, [VInt 0])]).*1 =
  [("a"%string, [VInt 0])].*1 ++
  filter (λ k, k ∉ [("a"%string, [VInt 0])].*1)
         [("b"%string, VInt 2); ("a"%string, VInt 1)].*1.
Proof.
  apply (columns_in_first_seen_order
           [("b"%string, VInt 2); ("a"%string, VInt 1)]
           [("a"%string, [VInt 0])]).
  apply (bool_decide_unpack _). vm_compute. exact I.
Defined.

(** A delegating builder that holds an empty simple builder, and calls of
    which the second is refused. *)
Definition simple_delegate : DelegatingArrowBlockBuilder pyarrow_model :=
  {| _builder := Some (BSimple (SimpleBlockBuilder___init__ pyarrow_model)) |}.

Definition row_then_table : list (call pyarrow_model) :=
  [Add (IDict (row_a 1));
   AddBlock (ArrowBlock (table_a [1%Z] : Table pyarrow_model))].

Lemma representation_is_final_witness :
  representation_of pyarrow_model
    (state_of (run DelegatingArrowBlockBuilder_call row_then_table simple_delegate)) =
    representation_of pyarrow_model simple_delegate ∧
  representation_of pyarrow_model
    (state_of (DelegatingArrowBlockBuilder_build pyarrow_model simple_delegate)) =
    representation_of pyarrow_model simple_delegate.
Proof.
  apply (representation_is_final pyarrow_model row_then_table simple_delegate).
  discriminate.
Defined.

Lemma delegating_is_arrow_after_trial_witness :
  run DelegatingArrowBlockBuilder_call
      (Add (IDict (row_a 1)) :: [Add (IDict (row_a 2))])
      (DelegatingArrowBlockBuilder___init__ pyarrow_model) =
    through_delegate pyarrow_model
      (run ArrowBlockBuilder_call
           (Add (IDict (row_a 1)) :: [Add (IDict (row_a 2))])
           (ArrowBlockBuilder___init__ pyarrow_model)) ∧
  py_bind (run DelegatingArrowBlockBuilder_call
             (Add (IDict (row_a 1)) :: [Add (IDict (row_a 2))]))
          (λ _, DelegatingArrowBlockBuilder_build pyarrow_model)
          (DelegatingArrowBlockBuilder___init__ pyarrow_model) =
    through_delegate pyarrow_model
      (py_bind (run ArrowBlockBuilder_call
                  (Add (IDict (row_a 1)) :: [Add (IDict (row_a 2))]))
               (λ _, py_bind (ArrowBlockBuilder_build pyarrow_model)
                             (λ t, py_ret (ArrowBlock t)))
               (ArrowBlockBuilder___init__ pyarrow_model)).
Proof.
  apply (delegating_is_arrow_after_trial pyarrow_model (row_a 1)
           [Add (IDict (row_a 2))] (table_a [1%Z]) builder_after_first_row).
  reflexivity.
Defined.

(** A library whose table construction fails with an error of another
    class, as pyarrow does with [OverflowError] on an integer that does not
    fit 64 bits. *)
Definition overflowing_lib : ArrowLib := {|
  Table := unit;
  Table_from_pydict := λ _, Err (OtherError "OverflowError");
  concat_tables := λ _, Err (OtherError "OverflowError");
  Table_num_rows := λ _, 0%Z;
  Table_slice := λ t _ _, t;
  Table_to_pydict := λ _, [];
|}.

Lemma trial_error_of_other_class_propagates_witness :
  DelegatingArrowBlockBuilder_add overflowing_lib (IDict (row_a 1))
      (DelegatingArrowBlockBuilder___init__ overflowing_lib) =
    Raise (OtherError "OverflowError")
          (DelegatingArrowBlockBuilder___init__ overflowing_lib).
Proof.
  apply (trial_error_of_other_class_propagates overflowing_lib (row_a 1)
           {| _columns := [("a"%string, [VInt 1])]; _tables := [];
              _num_rows := 1 |}
           {| _columns := [("a"%string, [VInt 1])]; _tables := [];
              _num_rows := 1 |}
           (OtherError "OverflowError")); reflexivity.
Defined.

(** The view of the only row of [table_ab]. *)
Definition view_ab : ArrowRow pyarrow_model :=
  {| _row := table_ab : Table pyarrow_model |}.

Lemma as_pydict_first_values_witness :
  (Forall (λ kv, kv.2 ≠ []) (Table_to_pydict pyarrow_model (_row _ view_ab)) →
   as_pydict pyarrow_model view_ab =
   Ok ((λ kv, (kv.1, default VNone (head kv.2)))
         <$> Table_to_pydict pyarrow_model (_row _ view_ab)) ∧
   ArrowRow_keys pyarrow_model view_ab =
   Ok (Table_to_pydict pyarrow_model (_row _ view_ab)).*1) ∧
  (Exists (λ kv, kv.2 = []) (Table_to_pydict pyarrow_model (_row _ view_ab)) →
   as_pydict pyarrow_model view_ab = Err IndexError) ∧
  (∀ e, as_pydict pyarrow_model view_ab = Err e → e = IndexError).
Proof.
  apply (as_pydict_first_values pyarrow_model view_ab).
  apply (bool_decide_unpack _). vm_compute. exact I.
Defined.



Lemma iterator_is_single_pass_witness :
  Iter___next__ pyarrow_model
    {| _table := table_a [1; 2]%Z : Table pyarrow_model |} {| _cur := 5 |} =
    Raise StopIteration {| _cur := 5 + 1 |} ∧
  list_of_iter pyarrow_model
    {| _table := table_a [1; 2]%Z : Table pyarrow_model |} {| _cur := 5 |} =
    Return [] {| _cur := 5 + 1 |}.
Proof.
  apply (proj2 (iterator_is_single_pass pyarrow_model
                  (table_a [1; 2]%Z : Table pyarrow_model) {| _cur := 5 |})).
  vm_compute. discriminate.
Defined.

(** A stand-in for the operations of the copying branch, which refuses to
    build a table; the non-copying branch does not call them. *)
Definition refusing_copy_ops : CopyOps pyarrow_model :=
  @Build_CopyOps pyarrow_model
    column (list value) (list (string * dtype))
    (λ t : table, t)
    col_data
    (λ _ _, Err (OtherError "NotImplementedError"))
    schema.

Lemma slice_without_copy_rows_witness :
  ∃ view : table,
    ArrowBlockAccessor_slice refusing_copy_ops
      {| _table := table_a [1; 2; 3]%Z : Table pyarrow_model |} 1 2 false =
      Ok (view : Table pyarrow_model) ∧
    rows_of pyarrow_model view =
      take (Z.to_nat (2 - 1))
           (drop (Z.to_nat 1)
                 (rows_of pyarrow_model (table_a [1; 2; 3]%Z : Table pyarrow_model))) ∧
    num_rows view = (Z.max 0 (Z.min 2 (num_rows (table_a [1; 2; 3]%Z)) - 1))%Z.
Proof.
  apply (slice_without_copy_rows refusing_copy_ops (table_a [1; 2; 3]%Z) 1 2).
  - reflexivity.
  - lia.
Defined.

Lemma row_view_keys_in_column_order_witness :
  ArrowRow_keys pyarrow_model (view_at pyarrow_model table_ab (Z.of_nat 0)) =
    Ok (col_name <$> table_ab) ∧
  ArrowRow_values pyarrow_model (view_at pyarrow_model table_ab (Z.of_nat 0)) =
    Ok ((λ c, default VNone (col_data c !! 0)) <$> table_ab).
Proof.
  apply (row_view_keys_in_column_order table_ab 0).
  - reflexivity.
  - apply (bool_decide_unpack _). vm_compute. exact I.
  - reflexivity.
Defined.

Lemma copy_by_row_views_witness :
  Forall2 same_row
    (rows_of pyarrow_model (table_a [1; 2]%Z : Table pyarrow_model))
    (rows_of pyarrow_model (table_a [1; 2]%Z : Table pyarrow_model)) ∧
  num_rows (table_a [1; 2]%Z) = num_rows (table_a [1; 2]%Z).
Proof.
  apply (copy_by_row_views (table_a [1; 2]%Z) (table_a [1; 2]%Z)
           {| _columns := [("a"%string, [VInt 1; VInt 2])];
              _tables := []; _num_rows := 2 |}).
  - reflexivity.
  - reflexivity.
Defined.

Lemma delegating_builds_columnar_witness :
  ∃ T : table,
    ArrowBlock (table_a [1; 2]%Z : Table pyarrow_model) =
      ArrowBlock (T : Table pyarrow_model) ∧
    representation_of pyarrow_model
      {| _builder := Some (BArrow
           {| _columns := [("a"%string, [VInt 1; VInt 2])];
              _tables := []; _num_rows := 2 |}) |} = Columnar ∧
    num_rows T = Z.of_nat (length (row_a 1 :: [row_a 2])) ∧
    Forall2 same_row (rows_of pyarrow_model T) (Ok <$> row_a 1 :: [row_a 2]).
Proof.
  apply (delegating_builds_columnar ["a"%string] (row_a 1) [row_a 2]
           (table_a [1%Z]) builder_after_first_row
           (ArrowBlock (table_a [1; 2]%Z : Table pyarrow_model))
           {| _builder := Some (BArrow
                {| _columns := [("a"%string, [VInt 1; VInt 2])];
                   _tables := []; _num_rows := 2 |}) |}).
  - exact (one_schema_row_a [1; 2]%Z).
  - discriminate.
  - reflexivity.
  - reflexivity.
Defined.

End MoreWitnesses.

(** ** [ArrowRow.__getitem__] *)

(** [table[key]]: the column of that name as a sequence of scalars, or an
    error. *)
Record ColumnOps (L : ArrowLib) : Type := {
  Table_getitem : Table L → string → result (list value);
}.
Arguments Table_getitem {L} _ _ _.

(** [self._row[key][0].as_py()]; [[0]] raises [IndexError] on an empty
    column. *)
Definition ArrowRow___getitem__ {L : ArrowLib} (ops : ColumnOps L)
    (self : ArrowRow L) (key : string) : result value :=
  match Table_getitem ops (_row L self) key with
  | Err e => Err e
  | Ok col =>
      match col with
      | [] => Err IndexError
      | x :: _ => Ok x
      end
  end.

(** Modelled from the spec: pyarrow is an external library.  [table[key]]
    is the one column with that name; a name that no column has, or that
    several have, is a [KeyError]. *)
Definition pyarrow_getitem (t : PyArrow.table) (key : string)
  : result (list value) :=
  match filter (λ c, PyArrow.col_name c = key) t with
  | [c] => Ok (PyArrow.col_data c)
  | _ => Err (OtherError "KeyError")
  end.

Definition pyarrow_column_ops : ColumnOps pyarrow_model :=
  @Build_ColumnOps pyarrow_model pyarrow_getitem.

Section GetItem.
Import PyArrow.
Implicit Types (t : table) (c : column).

Lemma filter_slice_absent t (offset len : Z) (key : string) :
  key ∉ col_name <$> t →
  filter (λ c, col_name c = key) (slice t offset len) = [].
Proof.
  induction t as [|c t IH]; csimpl; [done|].
  rewrite not_elem_of_cons. intros [Hne Hk].
  rewrite filter_cons_False by (simpl; intros Heq; apply Hne; by symmetry).
  by apply IH.
Qed.

(** Indexing a row view by a field name gives the value that the mapping
    form of the view holds for that name, and fails with a [KeyError] for a
    name that the mapping form does not have. *)
Theorem getitem_agrees_with_mapping_form t (i : nat) (key : string) :
  same_length t = true →
  NoDup (col_name <$> t) →
  (Z.of_nat i < num_rows t)%Z →
  ArrowRow___getitem__ pyarrow_column_ops
    (view_at pyarrow_model t (Z.of_nat i)) key =
  match dict_get (row_dict t i) key with
  | Some v => Ok v
  | None => Err (OtherError "KeyError")
  end.
Proof.
  intros Ht Hnd Hi. rewrite row_dict_get, to_pydict_NoDup_names by done.
  apply same_length_rect in Ht.
  assert (i < Z.to_nat (num_rows t)) as Hlt by lia.
  revert Ht Hlt. generalize (Z.to_nat (num_rows t)). intros n Hrect Hlt.
  clear Hi. unfold ArrowRow___getitem__, view_at. simpl.
  unfold pyarrow_getitem.
  induction t as [|c t IH]; csimpl; [done|].
  apply NoDup_cons in Hnd as [Hc Hnd]. apply Forall_cons in Hrect as [Hlen Hrect].
  destruct (decide (col_name c = key)) as [Hk|Hk].
  - rewrite filter_cons_True by done.
    rewrite filter_slice_absent by (by rewrite <- Hk). simpl.
    change (Z.to_nat 1) with 1%nat. rewrite Nat2Z.id.
    destruct (lookup_lt_is_Some_2 (col_data c) i ltac:(lia)) as [x Hx].
    by rewrite (drop_S _ _ _ Hx), Hx.
  - rewrite filter_cons_False by done. by apply IH.
Qed.

Lemma getitem_agrees_with_mapping_form_witness :
  ArrowRow___getitem__ pyarrow_column_ops
    (view_at pyarrow_model table_ab (Z.of_nat 0)) "b" =
  match dict_get (row_dict table_ab 0) "b" with
  | Some v => Ok v
  | None => Err (OtherError "KeyError")
  end.
Proof.
  apply (getitem_agrees_with_mapping_form table_ab 0 "b").
  - reflexivity.
  - apply (bool_decide_unpack _). vm_compute. exact I.
  - reflexivity.
Defined.

End GetItem.
